(** * send_first_img.py: fetch the first shop item and post it to a chat

    A shallow embedding of [send_first_img.py] and of the library calls it
    makes (str methods, [re], BeautifulSoup's tree search, [urllib.parse],
    [requests]), followed by the properties of the script.

    Text. A Python [str] is modelled as a Rocq [string]: a sequence of
    8-bit characters read as the code points U+0000..U+00FF.  On that range
    [str.isspace] holds of 9-13, 28-32, 133 and 160, and the class [\d] of
    [re] is exactly [0-9].

    Pages. The script never looks at the HTML text itself: it hands it to
    [BeautifulSoup(text, "html.parser")] and searches the tree it gets back.
    The parser is therefore a component of the world ([html_parser]) and the
    properties of the extraction are stated on the tree.

    Effects. Code that talks to the network, prints or exits runs in [IO],
    which threads the list of events of the run; an exception or a
    [SystemExit] ends the computation it occurs in. *)

From Stdlib Require Import ZArith NArith Ascii String List Bool Lia.
From stdpp Require Import base option list strings gmap.

Local Open Scope Z_scope.

(* ===================================================================== *)
(** ** Python exceptions and results *)

Inductive Exn :=
| RuntimeError (msg : string)
| KeyError (key : string)
| ValueError (msg : string)
| AttributeError (msg : string)
| HTTPError (status : Z)            (* requests.exceptions.HTTPError *)
| RequestException (msg : string)   (* ConnectionError, Timeout, ... *)
| JSONDecodeError (msg : string).

(** The outcome of a pure computation that may raise. *)
Inductive Result (A : Type) :=
| Ok (a : A)
| Raise (e : Exn).
Arguments Ok {A} a.
Arguments Raise {A} e.

#[global] Instance result_ret : MRet Result := λ A a, Ok a.

#[global] Instance result_bind : MBind Result := λ A B k m,
  match m with
  | Ok a => k a
  | Raise e => Raise e
  end.

(* ===================================================================== *)
(** ** str methods *)

Module Str.

Definition code (c : ascii) : N := N_of_ascii c.

Definition in_range (lo hi : N) (c : ascii) : bool :=
  ((lo <=? code c) && (code c <=? hi))%N.

(** [str.isspace] of a one-character string. *)
Definition isspace (c : ascii) : bool :=
  in_range 9 13 c || in_range 28 32 c
  || (code c =? 133)%N || (code c =? 160)%N.

(** [c.isascii() and c.isalpha()] *)
Definition is_ascii_alpha (c : ascii) : bool :=
  in_range 65 90 c || in_range 97 122 c.

Definition is_ascii_digit (c : ascii) : bool := in_range 48 57 c.

Definition is_empty (s : string) : bool :=
  match s with
  | EmptyString => true
  | String _ _ => false
  end.

(** Truth value of a str: [bool(s)]. *)
Definition truthy (s : string) : bool := negb (is_empty s).

Fixpoint startswith (s p : string) {struct p} : bool :=
  match p with
  | EmptyString => true
  | String b p' =>
      match s with
      | String a s' => Ascii.eqb a b && startswith s' p'
      | EmptyString => false
      end
  end.

(** [s.lstrip(chars)], [s.rstrip(chars)], [s.strip(chars)], with the
    character set given as a predicate. *)
Fixpoint lstrip_by (P : ascii → bool) (s : string) : string :=
  match s with
  | EmptyString => EmptyString
  | String c s' => if P c then lstrip_by P s' else s
  end.

Fixpoint rstrip_by (P : ascii → bool) (s : string) : string :=
  match s with
  | EmptyString => EmptyString
  | String c s' =>
      let r := rstrip_by P s' in
      if P c && is_empty r then EmptyString else String c r
  end.

Definition strip_by (P : ascii → bool) (s : string) : string :=
  rstrip_by P (lstrip_by P s).

(** [s.strip()] *)
Definition strip (s : string) : string := strip_by isspace s.

(** [s[n:]] *)
Fixpoint from (n : nat) (s : string) : string :=
  match n, s with
  | S n', String _ s' => from n' s'
  | _, _ => s
  end.

(** [c in s] for a character [c]. *)
Fixpoint contains (c : ascii) (s : string) : bool :=
  match s with
  | EmptyString => false
  | String a s' => Ascii.eqb a c || contains c s'
  end.

(** [s.partition(c)]: [None] when [c] does not occur, else the text before
    and after its first occurrence. *)
Fixpoint partition (c : ascii) (s : string) : option (string * string) :=
  match s with
  | EmptyString => None
  | String a s' =>
      if Ascii.eqb a c then Some (EmptyString, s')
      else match partition c s' with
           | Some (l, r) => Some (String a l, r)
           | None => None
           end
  end.

(** [s.rpartition(c)] *)
Fixpoint rpartition (c : ascii) (s : string) : option (string * string) :=
  match s with
  | EmptyString => None
  | String a s' =>
      match rpartition c s' with
      | Some (l, r) => Some (String a l, r)
      | None => if Ascii.eqb a c then Some (EmptyString, s') else None
      end
  end.

(** [s.split(c)] *)
Fixpoint split (c : ascii) (s : string) : list string :=
  match s with
  | EmptyString => [EmptyString]
  | String a s' =>
      if Ascii.eqb a c then EmptyString :: split c s'
      else match split c s' with
           | w :: ws => String a w :: ws
           | [] => [String a EmptyString]
           end
  end.

(** [sep.join(l)] *)
Fixpoint join (sep : string) (l : list string) : string :=
  match l with
  | [] => EmptyString
  | [w] => w
  | w :: ws => w +:+ sep +:+ join sep ws
  end.

(** [s.replace(c, empty)] *)
Fixpoint remove (c : ascii) (s : string) : string :=
  match s with
  | EmptyString => EmptyString
  | String a s' => if Ascii.eqb a c then remove c s' else String a (remove c s')
  end.

Definition lower_char (c : ascii) : ascii :=
  if in_range 65 90 c then ascii_of_N (code c + 32) else c.

(** [s.lower()] on text whose cased characters are ASCII. *)
Fixpoint lower_ascii (s : string) : string :=
  match s with
  | EmptyString => EmptyString
  | String c s' => String (lower_char c) (lower_ascii s')
  end.

Fixpoint forall_chars (P : ascii → bool) (s : string) : bool :=
  match s with
  | EmptyString => true
  | String c s' => P c && forall_chars P s'
  end.

End Str.

(* ===================================================================== *)
(** ** re: the fragment of the pattern language the script uses *)

Module Re.

(** One-character matchers. *)
Inductive charset :=
| LITERAL (c : ascii)
| CATEGORY_DIGIT             (* \d *)
| IN_HEX                     (* [a-fA-F0-9] *)
| ANY.                       (* .  (any character but a newline) *)

(** Pattern items: [^] and [\A], [\Z], a single character, and [x+] for a
    single-character [x]. A pattern is a sequence of items. *)
Inductive item :=
| AT_BEGINNING
| AT_END_STRING
| ONE (cs : charset)
| MAX_REPEAT_1 (cs : charset).

Definition pattern := list item.

Definition char_matches (cs : charset) (c : ascii) : bool :=
  match cs with
  | LITERAL d => Ascii.eqb c d
  | CATEGORY_DIGIT => Str.is_ascii_digit c
  | IN_HEX =>
      Str.in_range 97 102 c || Str.in_range 65 70 c || Str.in_range 48 57 c
  | ANY => negb (Ascii.eqb c "010")
  end.

(** [match_here p at_start s]: does [p] match a prefix of [s], where
    [at_start] tells whether [s] begins at position 0 of the subject? *)
Fixpoint match_here (p : pattern) (at_start : bool) (s : string) : bool :=
  match p with
  | [] => true
  | AT_BEGINNING :: p' => at_start && match_here p' at_start s
  | AT_END_STRING :: p' => Str.is_empty s && match_here p' at_start s
  | ONE cs :: p' =>
      match s with
      | String c s' => char_matches cs c && match_here p' false s'
      | EmptyString => false
      end
  | MAX_REPEAT_1 cs :: p' =>
      (fix rep (s : string) : bool :=
         match s with
         | String c s' =>
             char_matches cs c && (rep s' || match_here p' false s')
         | EmptyString => false
         end) s
  end.

Fixpoint search_from (p : pattern) (at_start : bool) (s : string) : bool :=
  match_here p at_start s
  || match s with
     | String _ s' => search_from p false s'
     | EmptyString => false
     end.

(** [bool(p.search(s))] *)
Definition search (p : pattern) (s : string) : bool := search_from p true s.

(** [bool(p.match(s))] *)
Definition match_ (p : pattern) (s : string) : bool := match_here p true s.

Definition literal (s : string) : pattern :=
  map (λ c, ONE (LITERAL c)) (list_ascii_of_string s).

End Re.

(* ===================================================================== *)
(** ** BeautifulSoup: the parse tree and its search methods *)

Module Bs4.

(** The classes of string nodes a tree can hold. *)
Inductive string_class :=
| NavigableString | CData | Comment | Declaration | Doctype
| ProcessingInstruction | Script | Stylesheet | TemplateString
| RubyTextString | RubyParenthesisString.

(** A node of the tree: a tag with its attribute dict and its children, or
    a string. The [BeautifulSoup] object itself is a tag named
    ["[document]"]. *)
#[warnings="-register-all"]
Inductive PageElement :=
| Tag (name : string) (attrs : gmap string string)
      (contents : list PageElement)
| Text (cls : string_class) (s : string).

(** [e.descendants]: every node below [e], in document order. *)
Fixpoint descendants (e : PageElement) : list PageElement :=
  match e with
  | Tag _ _ cs =>
      (fix go (l : list PageElement) : list PageElement :=
         match l with
         | [] => []
         | c :: l' => c :: descendants c ++ go l'
         end) cs
  | Text _ _ => []
  end.

(** [tag.get(key)] *)
Definition get (e : PageElement) (key : string) : option string :=
  match e with
  | Tag _ a _ => a !! key
  | Text _ _ => None
  end.

(** [tag[key]] *)
Definition getitem (e : PageElement) (key : string) : Result string :=
  match get e key with
  | Some v => Ok v
  | None => Raise (KeyError key)
  end.

(** A [SoupStrainer] built from a tag name and keyword arguments whose
    values are compiled patterns. *)
Record SoupStrainer := {
  strainer_name : string;
  strainer_attrs : list (string * Re.pattern)
}.

Definition attr_matches (e : PageElement) (kv : string * Re.pattern) : bool :=
  match get e kv.1 with
  | Some v => Re.search kv.2 v
  | None => false
  end.

(** [strainer.search(e)]: a tag of the wanted name all of whose listed
    attributes are present and match. *)
Definition search_tag (st : SoupStrainer) (e : PageElement) : bool :=
  match e with
  | Tag n _ _ =>
      String.eqb n (strainer_name st)
      && forallb (attr_matches e) (strainer_attrs st)
  | Text _ _ => false
  end.

Fixpoint first_match {A} (f : A → bool) (l : list A) : option A :=
  match l with
  | [] => None
  | x :: l' => if f x then Some x else first_match f l'
  end.

(** [e.find(name, **attrs)]: the first descendant the strainer accepts. *)
Definition find (e : PageElement) (name : string)
    (attrs : list (string * Re.pattern)) : option PageElement :=
  first_match (search_tag {| strainer_name := name; strainer_attrs := attrs |})
              (descendants e).

(** The string classes [get_text] collects by default. *)
Definition interesting_string_type (k : string_class) : bool :=
  match k with
  | NavigableString | CData => true
  | _ => false
  end.

(** [e._all_strings(strip=True)] *)
Fixpoint all_strings_strip (l : list PageElement) : list string :=
  match l with
  | [] => []
  | Text k s :: l' =>
      if interesting_string_type k && Str.truthy (Str.strip s)
      then Str.strip s :: all_strings_strip l'
      else all_strings_strip l'
  | Tag _ _ _ :: l' => all_strings_strip l'
  end.

(** [e.get_text(strip=True)] *)
Definition get_text_strip (e : PageElement) : string :=
  Str.join EmptyString (all_strings_strip (descendants e)).

End Bs4.

(* ===================================================================== *)
(** ** urllib.parse: urlsplit, urlparse, urlunparse and urljoin

    After [urllib/parse.py] of CPython 3.11. Validation of a bracketed host
    goes through [ipaddress.ip_address], which is taken as a parameter. The
    NFKC check of [_checknetloc] never raises on U+0000..U+00FF and is left
    out. *)

Module Urllib.

Inductive ip_version := IPv4Address | IPv6Address.

Definition uses_relative : list string :=
  [EmptyString; "ftp"; "http"; "gopher"; "nntp"; "imap"; "wais"; "file"; "https";
   "shttp"; "mms"; "prospero"; "rtsp"; "rtspu"; "sftp"; "svn"; "svn+ssh";
   "ws"; "wss"].

Definition uses_netloc : list string :=
  [EmptyString; "ftp"; "http"; "gopher"; "nntp"; "telnet"; "imap"; "wais"; "file";
   "mms"; "https"; "shttp"; "snews"; "prospero"; "rtsp"; "rtspu"; "rsync";
   "svn"; "svn+ssh"; "sftp"; "nfs"; "git"; "git+ssh"; "ws"; "wss"].

Definition uses_params : list string :=
  [EmptyString; "ftp"; "hdl"; "prospero"; "http"; "imap"; "https"; "shttp"; "rtsp";
   "rtspu"; "sip"; "sips"; "mms"; "sftp"; "tel"].

Definition mem (s : string) (l : list string) : bool :=
  existsb (String.eqb s) l.

(** [c in scheme_chars] *)
Definition scheme_char (c : ascii) : bool :=
  Str.in_range 97 122 c || Str.in_range 65 90 c || Str.in_range 48 57 c
  || Ascii.eqb c "+" || Ascii.eqb c "-" || Ascii.eqb c ".".

(** [c in _WHATWG_C0_CONTROL_OR_SPACE] *)
Definition c0_control_or_space (c : ascii) : bool := (Str.code c <=? 32)%N.

(** [for b in _UNSAFE_URL_BYTES_TO_REMOVE: s = s.replace(b, empty)] *)
Definition remove_unsafe (s : string) : string :=
  Str.remove "010" (Str.remove "013" (Str.remove "009" s)).

Fixpoint split_at (is_delim : ascii → bool) (s : string) : string * string :=
  match s with
  | EmptyString => (EmptyString, EmptyString)
  | String c s' =>
      if is_delim c then (EmptyString, s)
      else let '(a, b) := split_at is_delim s' in (String c a, b)
  end.

(** [_splitnetloc(url, start)] *)
Definition _splitnetloc (url : string) (start : nat) : string * string :=
  split_at (λ c, Ascii.eqb c "/" || Ascii.eqb c "?" || Ascii.eqb c "#")
           (Str.from start url).

(** [s[:-1]] *)
Fixpoint drop_last (s : string) : string :=
  match s with
  | EmptyString => EmptyString
  | String c EmptyString => EmptyString
  | String c s' => String c (drop_last s')
  end.

(** [s.partition(c)] and [s.rpartition(c)] as Python returns them. *)
Definition partition3 (c : ascii) (s : string) : string * bool * string :=
  match Str.partition c s with
  | Some (l, r) => (l, true, r)
  | None => (s, false, EmptyString)
  end.

Definition rpartition3 (c : ascii) (s : string) : string * bool * string :=
  match Str.rpartition c s with
  | Some (l, r) => (l, true, r)
  | None => (EmptyString, false, s)
  end.

(** [r"\Av[a-fA-F0-9]+\..+\Z"] *)
Definition ipvfuture_re : Re.pattern :=
  [Re.AT_BEGINNING; Re.ONE (Re.LITERAL "v"); Re.MAX_REPEAT_1 Re.IN_HEX;
   Re.ONE (Re.LITERAL "."); Re.MAX_REPEAT_1 Re.ANY; Re.AT_END_STRING].

Section parse.

(** [ipaddress.ip_address]: the kind of address a text denotes; [None]
    when it denotes none and the call raises [ValueError] (whose
    message, which quotes the text, is abbreviated below). *)
Variable ip_address : string → option ip_version.

Definition _check_bracketed_host (hostname : string) : Result unit :=
  if Str.startswith hostname "v" then
    if negb (Re.match_ ipvfuture_re hostname)
    then Raise (ValueError "IPvFuture address is invalid")
    else Ok ()
  else
    match ip_address hostname with
    | None =>
        Raise (ValueError "does not appear to be an IPv4 or IPv6 address")
    | Some IPv4Address =>
        Raise (ValueError "An IPv4 address cannot be in brackets")
    | Some IPv6Address => Ok ()
    end.

Definition _check_bracketed_netloc (netloc : string) : Result unit :=
  let hostname_and_port := (rpartition3 "@" netloc).2 in
  let '(before_bracket, have_open_br, bracketed) :=
    partition3 "[" hostname_and_port in
  if have_open_br then
    if Str.truthy before_bracket then Raise (ValueError "Invalid IPv6 URL")
    else
      let '(hostname, _, port) := partition3 "]" bracketed in
      if Str.truthy port && negb (Str.startswith port ":")
      then Raise (ValueError "Invalid IPv6 URL")
      else _check_bracketed_host hostname
  else
    let '(hostname, _, port) := partition3 ":" hostname_and_port in
    _check_bracketed_host hostname.

(** [urlsplit(url, scheme)]: (scheme, netloc, path, query, fragment) *)
Definition urlsplit (url scheme : string)
    : Result (string * string * string * string * string) :=
  let url := Str.lstrip_by c0_control_or_space url in
  let scheme := Str.strip_by c0_control_or_space scheme in
  let url := remove_unsafe url in
  let scheme := remove_unsafe scheme in
  let '(scheme, url) :=
    match Str.partition ":" url with
    | Some (String c0 pre, post) =>
        if Str.is_ascii_alpha c0 && Str.forall_chars scheme_char (String c0 pre)
        then (Str.lower_ascii (String c0 pre), post)
        else (scheme, url)
    | _ => (scheme, url)
    end in
  '(netloc, url) ←
    (if Str.startswith url "//" then
       let '(netloc, url) := _splitnetloc url 2 in
       if (Str.contains "[" netloc && negb (Str.contains "]" netloc))
          || (Str.contains "]" netloc && negb (Str.contains "[" netloc))
       then Raise (ValueError "Invalid IPv6 URL")
       else if Str.contains "[" netloc && Str.contains "]" netloc
       then _ ← _check_bracketed_netloc netloc; Ok (netloc, url)
       else Ok (netloc, url)
     else Ok (EmptyString, url));
  let '(url, fragment) :=
    match Str.partition "#" url with
    | Some (l, r) => (l, r)
    | None => (url, EmptyString)
    end in
  let '(url, query) :=
    match Str.partition "?" url with
    | Some (l, r) => (l, r)
    | None => (url, EmptyString)
    end in
  Ok (scheme, netloc, url, query, fragment).

Definition _splitparams (url : string) : string * string :=
  match Str.rpartition "/" url with
  | Some (head, tail) =>
      match Str.partition ";" tail with
      | Some (l, r) => (head +:+ "/" +:+ l, r)
      | None => (url, EmptyString)
      end
  | None =>
      match Str.partition ";" url with
      | Some (l, r) => (l, r)
      | None => (drop_last url, url)
      end
  end.

(** [urlparse(url, scheme)]:
    (scheme, netloc, path, params, query, fragment) *)
Definition urlparse (url scheme : string)
    : Result (string * string * string * string * string * string) :=
  '(scheme, netloc, url, query, fragment) ← urlsplit url scheme;
  let '(url, params) :=
    if mem scheme uses_params && Str.contains ";" url
    then _splitparams url
    else (url, EmptyString) in
  Ok (scheme, netloc, url, params, query, fragment).

Definition urlunsplit (scheme netloc url query fragment : string) : string :=
  let url :=
    if Str.truthy netloc
       || (Str.truthy scheme && mem scheme uses_netloc
           && negb (Str.startswith url "//"))
    then
      let url :=
        if Str.truthy url && negb (Str.startswith url "/")
        then "/" +:+ url else url in
      "//" +:+ netloc +:+ url
    else url in
  let url := if Str.truthy scheme then scheme +:+ ":" +:+ url else url in
  let url := if Str.truthy query then url +:+ "?" +:+ query else url in
  let url := if Str.truthy fragment then url +:+ "#" +:+ fragment else url in
  url.

Definition urlunparse (scheme netloc url params query fragment : string)
    : string :=
  let url := if Str.truthy params then url +:+ ";" +:+ params else url in
  urlunsplit scheme netloc url query fragment.

(** [segments[1:-1] = filter(None, segments[1:-1])] *)
Definition filter_inner (segments : list string) : list string :=
  match segments with
  | first :: (_ :: _) as rest =>
      first :: List.filter Str.truthy (removelast rest)
            ++ [List.last rest EmptyString]
  | _ => segments
  end.

(** The loop of [urljoin] over the path segments. *)
Definition resolve_segment (resolved_path : list string) (seg : string)
    : list string :=
  if String.eqb seg ".." then removelast resolved_path
  else if String.eqb seg "." then resolved_path
  else resolved_path ++ [seg].

(** [urljoin(base, url)] *)
Definition urljoin (base url : string) : Result string :=
  if negb (Str.truthy base) then Ok url
  else if negb (Str.truthy url) then Ok base
  else
    '(bscheme, bnetloc, bpath, bparams, bquery, bfragment) ←
      urlparse base EmptyString;
    '(scheme, netloc, path, params, query, fragment) ←
      urlparse url bscheme;
    if negb (String.eqb scheme bscheme) || negb (mem scheme uses_relative)
    then Ok url
    else if mem scheme uses_netloc && Str.truthy netloc
    then Ok (urlunparse scheme netloc path params query fragment)
    else
      let netloc := if mem scheme uses_netloc then bnetloc else netloc in
      if negb (Str.truthy path) && negb (Str.truthy params) then
        let query := if negb (Str.truthy query) then bquery else query in
        Ok (urlunparse scheme netloc bpath bparams query fragment)
      else
        let base_parts := Str.split "/" bpath in
        let base_parts :=
          if negb (String.eqb (List.last base_parts EmptyString) EmptyString)
          then removelast base_parts else base_parts in
        let segments :=
          if Str.startswith path "/" then Str.split "/" path
          else filter_inner (base_parts ++ Str.split "/" path) in
        let resolved_path := fold_left resolve_segment segments [] in
        let resolved_path :=
          if mem (List.last segments EmptyString) ["."; ".."]
          then resolved_path ++ [EmptyString] else resolved_path in
        let joined := Str.join "/" resolved_path in
        Ok (urlunparse scheme netloc
              (if Str.truthy joined then joined else "/")
              params query fragment).

End parse.

End Urllib.

(* ===================================================================== *)
(** ** The world the script runs in: environment, network, console *)

(** The objects [json.loads] produces. *)
#[warnings="-register-all"]
Inductive pyobj :=
| PyNone
| PyBool (b : bool)
| PyInt (z : Z)
| PyFloat (repr : string)
| PyStr (s : string)
| PyList (l : list pyobj)
| PyDict (d : gmap string pyobj).

(** [obj.get(key)]: only a dict has the method. *)
Definition py_get (obj : pyobj) (key : string) : Result pyobj :=
  match obj with
  | PyDict d => Ok (default PyNone (d !! key))
  | _ => Raise (AttributeError "object has no attribute 'get'")
  end.

(** A [requests.Response]: the status, the decoded body, the raw body and
    what [resp.json()] gives. *)
Record Response := {
  status_code : Z;
  text : string;
  content : list Byte.byte;
  json : Result pyobj
}.

(** [resp.raise_for_status()] *)
Definition raise_for_status (resp : Response) : Result unit :=
  if (400 <=? status_code resp) && (status_code resp <? 500)
  then Raise (HTTPError (status_code resp))
  else if (500 <=? status_code resp) && (status_code resp <? 600)
  then Raise (HTTPError (status_code resp))
  else Ok ().

(** What lies outside the script: the process environment, the answers of
    the network to each request (a response, or the exception raised when
    none arrives), the HTML parser and the address parser. *)
Record World := {
  environ : gmap string string;
  http_get : string → Z → Result Response;
  http_post : string → gmap string string
              → gmap string (string * list Byte.byte) → Z → Result Response;
  html_parser : string → Bs4.PageElement;
  ip_address : string → option Urllib.ip_version
}.

(** Arguments of [print]. *)
Inductive printable :=
| PStr (s : string)
| PExn (e : Exn)
| PObj (o : pyobj).

(** What a run does that can be observed from outside. *)
Inductive event :=
| GET (url : string) (timeout : Z)
| POST (url : string) (data : gmap string string)
       (files : gmap string (string * list Byte.byte)) (timeout : Z)
| PRINT (args : list printable).

(** How a computation ends: with a value, with an exception, or with
    [SystemExit]. *)
Inductive Outcome (A : Type) :=
| Returns (a : A)
| Raises (e : Exn)
| Exits (code : Z).
Arguments Returns {A} a.
Arguments Raises {A} e.
Arguments Exits {A} code.

(** Effectful code threads the trace of events so far. *)
Definition IO (A : Type) : Type := list event → Outcome A * list event.

#[global] Instance io_ret : MRet IO := λ A a tr, (Returns a, tr).

#[global] Instance io_bind : MBind IO := λ A B k m tr,
  match m tr with
  | (Returns a, tr') => k a tr'
  | (Raises e, tr') => (Raises e, tr')
  | (Exits c, tr') => (Exits c, tr')
  end.

Definition lift {A} (r : Result A) : IO A := λ tr,
  match r with
  | Ok a => (Returns a, tr)
  | Raise e => (Raises e, tr)
  end.

Definition emit (ev : event) : IO unit := λ tr, (Returns (), tr ++ [ev]).

(** [try: body  except Exception as e: handler] *)
Definition try_except {A} (body : IO A) (handler : Exn → IO A) : IO A := λ tr,
  match body tr with
  | (Raises e, tr') => handler e tr'
  | r => r
  end.

Definition print (args : list printable) : IO unit := emit (PRINT args).

Definition sys_exit {A} (code : Z) : IO A := λ tr, (Exits code, tr).

(** [os.getenv(name)] *)
Definition os_getenv (w : World) (name : string) : option string :=
  environ w !! name.

(** [requests.get(url, timeout=t)] *)
Definition requests_get (w : World) (url : string) (timeout : Z) : IO Response :=
  _ ← emit (GET url timeout);
  lift (http_get w url timeout).

(** [requests.post(url, data=data, files=files, timeout=t)] *)
Definition requests_post (w : World) (url : string) (data : gmap string string)
    (files : gmap string (string * list Byte.byte)) (timeout : Z) : IO Response :=
  _ ← emit (POST url data files timeout);
  lift (http_post w url data files timeout).

(* ===================================================================== *)
(** ** send_first_img.py *)

Definition URL : string := "https://www.nogizaka46shop.com/category/426".

(** [re.compile(r"^item_\d+")] *)
Definition item_id_re : Re.pattern :=
  Re.AT_BEGINNING :: Re.literal "item_" ++ [Re.MAX_REPEAT_1 Re.CATEGORY_DIGIT].

(** Truth value of an optional str ([None] is false). *)
Definition opt_truthy (o : option string) : bool :=
  match o with
  | Some s => Str.truthy s
  | None => false
  end.

(** Lines 32-51 of [get_first_item]: from the parsed page to the result. *)
Definition first_item (w : World) (url : string) (soup : Bs4.PageElement)
    : Result (string * string) :=
  match Bs4.find soup "div" [("id", item_id_re)] with
  | None => Raise (RuntimeError "No item div found on the page")
  | Some div =>
      match Bs4.find div "img" [] with
      | None => Raise (RuntimeError "No image tag found in the first item div")
      | Some img =>
          if negb (opt_truthy (Bs4.get img "src"))
          then Raise (RuntimeError "No image tag found in the first item div")
          else
            v ← Bs4.getitem img "src";
            let src := Str.strip v in
            src ← (if Str.startswith src "//" then Ok ("https:" +:+ src)
                   else if Str.startswith src "/"
                   then Urllib.urljoin (ip_address w) url src
                   else Ok src);
            let dd := Bs4.find div "dd" [] in
            let caption :=
              match dd with
              | Some dd => Bs4.get_text_strip dd
              | None => EmptyString
              end in
            Ok (src, caption)
      end
  end.

Definition get_first_item (w : World) (url : string) : IO (string * string) :=
  resp ← requests_get w url 15;
  _ ← lift (raise_for_status resp);
  let soup := html_parser w (text resp) in
  lift (first_item w url soup).

Definition download_image_bytes (w : World) (image_url : string)
    : IO (list Byte.byte) :=
  resp ← requests_get w image_url 20;
  _ ← lift (raise_for_status resp);
  mret (content resp).

Definition send_photo_telegram (w : World) (bot_token chat_id : string)
    (image_bytes : list Byte.byte) (caption : string) : IO pyobj :=
  let api := "https://api.telegram.org/bot" +:+ bot_token +:+ "/sendPhoto" in
  let files : gmap string (string * list Byte.byte) :=
    {[ "photo" := ("image.jpg", image_bytes) ]} in
  let data : gmap string string :=
    <[ "chat_id" := chat_id ]> {[ "caption" := caption ]} in
  resp ← requests_post w api data files 30;
  _ ← lift (raise_for_status resp);
  lift (json resp).

Definition usage_exit : IO unit :=
  _ ← print [PStr "Please set TELEGRAM_BOT_TOKEN and TELEGRAM_CHAT_ID environment variables."];
  sys_exit 2.

Definition main (w : World) : IO unit :=
  match os_getenv w "TELEGRAM_BOT_TOKEN", os_getenv w "TELEGRAM_CHAT_ID" with
  | Some token, Some chat_id =>
      if negb (Str.truthy token) || negb (Str.truthy chat_id) then usage_exit
      else
        '(image_url, caption) ←
          try_except (get_first_item w URL)
            (λ e, _ ← print [PStr "Error fetching/parsing page:"; PExn e];
                  sys_exit 1);
        _ ← print [PStr "Found image:"; PStr image_url];
        _ ← print [PStr "Caption:"; PStr caption];
        image_bytes ←
          try_except (download_image_bytes w image_url)
            (λ e, _ ← print [PStr "Error downloading image:"; PExn e];
                  sys_exit 1);
        res ←
          try_except (send_photo_telegram w token chat_id image_bytes caption)
            (λ e, _ ← print [PStr "Error sending to Telegram:"; PExn e];
                  sys_exit 1);
        ok ← lift (py_get res "ok");
        print [PStr "Telegram API returned ok="; PObj ok]
  | _, _ => usage_exit
  end.

(** The exit status of the process: 0 when [main] returns, the argument of
    [sys.exit], and 1 when an exception reaches the top level. The console
    of the model takes every line that is printed; a standard output that
    refuses writes, on which the interpreter ends with another status, is
    not part of a [World]. *)
Definition exit_status {A} (o : Outcome A) : Z :=
  match o with
  | Returns _ => 0
  | Exits code => code
  | Raises _ => 1
  end.

(** [python send_first_img.py]: exit status and observable events. *)
Definition run (w : World) : Z * list event :=
  let '(o, tr) := main w [] in (exit_status o, tr).

(* ===================================================================== *)
(** ** The components inside [get_first_item] *)

(** Item Extractor: lines 32-40 and 48-49, the trimmed [src] of the first
    image of the first item div paired with the caption, before lines 42-46
    rewrite the reference. *)
Definition extract_item (soup : Bs4.PageElement) : Result (string * string) :=
  match Bs4.find soup "div" [("id", item_id_re)] with
  | None => Raise (RuntimeError "No item div found on the page")
  | Some div =>
      match Bs4.find div "img" [] with
      | None => Raise (RuntimeError "No image tag found in the first item div")
      | Some img =>
          if negb (opt_truthy (Bs4.get img "src"))
          then Raise (RuntimeError "No image tag found in the first item div")
          else
            v ← Bs4.getitem img "src";
            let src := Str.strip v in
            let dd := Bs4.find div "dd" [] in
            let caption :=
              match dd with
              | Some dd => Bs4.get_text_strip dd
              | None => EmptyString
              end in
            Ok (src, caption)
      end
  end.

(** Lines 48-49: the caption of an item container. *)
Definition caption_of (div : Bs4.PageElement) : string :=
  match Bs4.find div "dd" [] with
  | Some dd => Bs4.get_text_strip dd
  | None => EmptyString
  end.

(** URL Normalizer: lines 42-46. *)
Definition normalize_src (w : World) (url src : string) : Result string :=
  if Str.startswith src "//" then Ok ("https:" +:+ src)
  else if Str.startswith src "/" then Urllib.urljoin (ip_address w) url src
  else Ok src.

(* ===================================================================== *)
(** ** Vocabulary of the properties *)

Definition is_tag (name : string) (e : Bs4.PageElement) : bool :=
  match e with
  | Bs4.Tag n _ _ => String.eqb n name
  | Bs4.Text _ _ => false
  end.

(** The rest of [s] after the prefix [p], when [s] begins with [p]. *)
Fixpoint after_prefix (p s : string) {struct p} : option string :=
  match p with
  | EmptyString => Some s
  | String b p' =>
      match s with
      | String a s' => if Ascii.eqb a b then after_prefix p' s' else None
      | EmptyString => None
      end
  end.

(** An id that begins with ["item_"] and a digit. *)
Definition item_prefix_id (id : string) : bool :=
  match after_prefix "item_" id with
  | Some (String d _) => Str.is_ascii_digit d
  | _ => false
  end.

(** An id that is ["item_"] followed by one or more digits and nothing
    else: the anchored pattern [^item_\d+$]. *)
Definition item_exact_id (id : string) : bool :=
  match after_prefix "item_" id with
  | Some ds => Str.truthy ds && Str.forall_chars Str.is_ascii_digit ds
  | None => false
  end.

(** An element, of any name, whose id satisfies [p]. *)
Definition id_satisfies (p : string → bool) (e : Bs4.PageElement) : bool :=
  match Bs4.get e "id" with
  | Some id => p id
  | None => false
  end.

(** A [div] whose id begins with ["item_"] and a digit. *)
Definition is_item_div (e : Bs4.PageElement) : bool :=
  is_tag "div" e && id_satisfies item_prefix_id e.

(** [x] is the first element of [l] that satisfies [f]. *)
Definition first_such {A} (f : A → bool) (l : list A) (x : A) : Prop :=
  ∃ pre post, l = pre ++ x :: post ∧ f x = true ∧ Forall (λ y, f y = false) pre.

(** A reference that carries a scheme: a letter, then letters, digits,
    [+], [-] or [.], then a colon. *)
Definition has_scheme (s : string) : bool :=
  match Str.partition ":" s with
  | Some (String c0 pre, _) =>
      Str.is_ascii_alpha c0 && Str.forall_chars Urllib.scheme_char pre
  | _ => false
  end.

Definition is_value_error (e : Exn) : Prop :=
  match e with
  | ValueError _ => True
  | _ => False
  end.

(** A status in the 2xx class. *)
Definition success_status (sc : Z) : bool := (200 <=? sc) && (sc <? 300).

(** A request that [requests] reports as failed: no response arrived, or
    the status is in 400..599. *)
Definition http_failure (r : Result Response) : bool :=
  match r with
  | Raise _ => true
  | Ok resp => (400 <=? status_code resp) && (status_code resp <? 600)
  end.

(** The lines [main] prints and the request the notifier sends. *)
Definition usage_line : event :=
  PRINT [PStr "Please set TELEGRAM_BOT_TOKEN and TELEGRAM_CHAT_ID environment variables."].

Definition found_lines (image_url caption : string) : list event :=
  [PRINT [PStr "Found image:"; PStr image_url];
   PRINT [PStr "Caption:"; PStr caption]].

Definition send_photo_request (bot_token chat_id : string)
    (image_bytes : list Byte.byte) (caption : string) : event :=
  POST ("https://api.telegram.org/bot" +:+ bot_token +:+ "/sendPhoto")
       (<[ "chat_id" := chat_id ]> {[ "caption" := caption ]})
       {[ "photo" := ("image.jpg", image_bytes) ]} 30.

(** What the messaging API answers to that request. *)
Definition send_photo_answer (w : World) (bot_token chat_id : string)
    (image_bytes : list Byte.byte) (caption : string) : Result Response :=
  http_post w ("https://api.telegram.org/bot" +:+ bot_token +:+ "/sendPhoto")
    (<[ "chat_id" := chat_id ]> {[ "caption" := caption ]})
    {[ "photo" := ("image.jpg", image_bytes) ]} 30.

(** An element with id [id] that has below it an [img] whose src is [src]
    and a [dd] whose only child is the text [caption]. *)
Definition is_img_with_src (src : string) (e : Bs4.PageElement) : bool :=
  is_tag "img" e && bool_decide (Bs4.get e "src" = Some src).

Definition is_dd_with_text (caption : string) (e : Bs4.PageElement) : bool :=
  match e with
  | Bs4.Tag n _ [Bs4.Text Bs4.NavigableString s] =>
      String.eqb n "dd" && String.eqb s caption
  | _ => false
  end.

Definition item_element (id src caption : string) (e : Bs4.PageElement) : bool :=
  bool_decide (Bs4.get e "id" = Some id)
  && existsb (is_img_with_src src) (Bs4.descendants e)
  && existsb (is_dd_with_text caption) (Bs4.descendants e).

Definition contains_item (id src caption : string) (soup : Bs4.PageElement)
    : bool :=
  existsb (item_element id src caption) (Bs4.descendants soup).

(* ===================================================================== *)
(** ** Sample pages and worlds *)

Definition document (cs : list Bs4.PageElement) : Bs4.PageElement :=
  Bs4.Tag "[document]" ∅ cs.

Definition txt (s : string) : Bs4.PageElement := Bs4.Text Bs4.NavigableString s.

Definition img_src (src : string) : Bs4.PageElement :=
  Bs4.Tag "img" {[ "src" := src ]} [].

Definition item_div (id : string) (cs : list Bs4.PageElement) : Bs4.PageElement :=
  Bs4.Tag "div" {[ "id" := id ]} cs.

(** [<div id="item_42"><img src="/path/a.jpg"><dd>Caption Text</dd></div>] *)
Definition div_item_42 : Bs4.PageElement :=
  item_div "item_42"
    [img_src "/path/a.jpg"; Bs4.Tag "dd" ∅ [txt "Caption Text"]].

Definition page_item_42 : Bs4.PageElement := document [div_item_42].

(** [<div id="item_7"><img src="/other/b.jpg"><dd>Other</dd></div>]
    followed by the item 42 above. *)
Definition page_two_items : Bs4.PageElement :=
  document
    [item_div "item_7" [img_src "/other/b.jpg"; Bs4.Tag "dd" ∅ [txt "Other"]];
     div_item_42].

(** [<div id="item_42abc"><img src="/x.jpg"></div>] *)
Definition div_item_42abc : Bs4.PageElement :=
  item_div "item_42abc" [img_src "/x.jpg"].

Definition page_item_42abc : Bs4.PageElement := document [div_item_42abc].

(** [<div id="item_1"><img src="images/x.jpg"></div>] *)
Definition page_relative_src : Bs4.PageElement :=
  document [item_div "item_1" [img_src "images/x.jpg"]].

(** [<div id="item_1"><img src="  "><dd>Cap</dd></div>] *)
Definition page_blank_src : Bs4.PageElement :=
  document [item_div "item_1" [img_src "  "; Bs4.Tag "dd" ∅ [txt "Cap"]]].

(** [<p>nothing here</p>] *)
Definition page_no_item : Bs4.PageElement :=
  document [Bs4.Tag "p" ∅ [txt "nothing here"]].


(** [<div id="item_3"><img alt="x"></div>] *)
Definition page_no_src : Bs4.PageElement :=
  document [item_div "item_3" [Bs4.Tag "img" {[ "alt" := "x" ]} []]].

(** [<div id="item_9"><img src="//img.example.com/p.png"></div>] *)
Definition page_no_dd : Bs4.PageElement :=
  document [item_div "item_9" [img_src "//img.example.com/p.png"]].

Definition response (sc : Z) (body : string) (raw : list Byte.byte)
    (js : Result pyobj) : Response :=
  {| status_code := sc; text := body; content := raw; json := js |}.

Definition no_json : Result pyobj := Raise (JSONDecodeError "Expecting value").

Definition page_response : Response := response 200 "<html>" [] no_json.

Definition image_bytes_sample : list Byte.byte := [Byte.xff; Byte.xd8; Byte.xff].

(** A world with the given environment in which the catalog URL answers
    [page], parsed as [soup], every other URL answers [image], and the
    messaging API answers [api]. *)
Definition world (env : gmap string string) (page : Result Response)
    (soup : Bs4.PageElement) (image api : Result Response) : World :=
  {| environ := env;
     http_get := λ url _, if String.eqb url URL then page else image;
     http_post := λ _ _ _ _, api;
     html_parser := λ _, soup;
     ip_address := λ _, None |}.

Definition credentials : gmap string string :=
  <[ "TELEGRAM_BOT_TOKEN" := "123:abc" ]> {[ "TELEGRAM_CHAT_ID" := "-100" ]}.

Definition api_ok (ok : bool) : Result Response :=
  Ok (response 200 EmptyString [] (Ok (PyDict {[ "ok" := PyBool ok ]}))).

Definition image_ok : Result Response :=
  Ok (response 200 EmptyString image_bytes_sample no_json).

(** An image host that answers 304 Not Modified with an empty body. *)
Definition not_modified : Response := response 304 EmptyString [] no_json.

Definition world_not_modified : World :=
  world credentials (Ok page_response) page_item_42
    (Ok not_modified) (api_ok true).

(** A page host that is down, an image host that answers 404 and a
    messaging API that answers 500. *)
Definition world_page_down : World :=
  world credentials (Raise (RequestException "Connection refused"))
    page_item_42 image_ok (api_ok true).

Definition world_image_404 : World :=
  world credentials (Ok page_response) page_item_42
    (Ok (response 404 EmptyString [] no_json)) (api_ok true).

Definition world_api_500 : World :=
  world credentials (Ok page_response) page_item_42 image_ok
    (Ok (response 500 EmptyString [] no_json)).

(** Worlds without the bot token, and with an empty chat id. *)
Definition world_no_token : World :=
  world {[ "TELEGRAM_CHAT_ID" := "-100" ]} (Ok page_response) page_item_42
    image_ok (api_ok true).

Definition world_empty_chat_id : World :=
  world (<[ "TELEGRAM_BOT_TOKEN" := "123:abc" ]> {[ "TELEGRAM_CHAT_ID" := EmptyString ]})
    (Ok page_response) page_item_42 image_ok (api_ok true).

(** A world in which every step succeeds and the API reports [ok]. *)
Definition world_ok (ok : bool) : World :=
  world credentials (Ok page_response) page_item_42 image_ok (api_ok ok).

(* ===================================================================== *)
(** ** Vocabulary of the further properties *)

(** A result seen as the end of a computation. *)
Definition to_outcome {A} (r : Result A) : Outcome A :=
  match r with
  | Ok a => Returns a
  | Raise e => Raises e
  end.

(** What the three steps of the pipeline come to, apart from the events:
    the page step for a page URL, the download of an image URL, and the
    notification. *)
Definition page_step (w : World) (url : string) : Result (string * string) :=
  resp ← http_get w url 15;
  _ ← raise_for_status resp;
  first_item w url (html_parser w (text resp)).

Definition download_step (w : World) (image_url : string)
    : Result (list Byte.byte) :=
  resp ← http_get w image_url 20;
  _ ← raise_for_status resp;
  Ok (content resp).

Definition notify_step (w : World) (bot_token chat_id : string)
    (image_bytes : list Byte.byte) (caption : string) : Result pyobj :=
  resp ← send_photo_answer w bot_token chat_id image_bytes caption;
  _ ← raise_for_status resp;
  json resp.

(** The requests among the events of a run. *)
Definition is_request (ev : event) : bool :=
  match ev with
  | GET _ _ | POST _ _ _ _ => true
  | PRINT _ => false
  end.

Definition requests_of (tr : list event) : list event :=
  List.filter is_request tr.

(** Text that neither begins nor ends with a character of the class [P]. *)
Definition starts_clean (P : ascii → bool) (s : string) : bool :=
  match s with
  | EmptyString => true
  | String c _ => negb (P c)
  end.

Fixpoint ends_clean (P : ascii → bool) (s : string) : bool :=
  match s with
  | EmptyString => true
  | String c EmptyString => negb (P c)
  | String _ s' => ends_clean P s'
  end.

(** A character of a plain site-relative path: not a tab, a line break or
    one of the delimiters [#], [?] and [;]. *)
Definition plain_path_char (c : ascii) : bool :=
  negb (Ascii.eqb c "009" || Ascii.eqb c "010" || Ascii.eqb c "013"
        || Ascii.eqb c "#" || Ascii.eqb c "?" || Ascii.eqb c ";").

(** A path segment other than [.] and [..]. *)
Definition no_dot_segment (seg : string) : bool :=
  negb (String.eqb seg ".." || String.eqb seg ".").

(** More sample pages and worlds. *)

(** [<div id="item_5"><img src="/a.jpg"><dd> New <!--x--><b>Release </b></dd></div>] *)
Definition page_rich_caption : Bs4.PageElement :=
  document
    [item_div "item_5"
       [img_src "/a.jpg";
        Bs4.Tag "dd" ∅
          [txt " New "; Bs4.Text Bs4.Comment "x";
           Bs4.Tag "b" ∅ [txt "Release "]]]].

(** A messaging API whose body parses to a list, and one whose body does
    not parse. *)
Definition world_api_list : World :=
  world credentials (Ok page_response) page_item_42 image_ok
    (Ok (response 200 EmptyString [] (Ok (PyList [PyBool true])))).

Definition world_api_garbled : World :=
  world credentials (Ok page_response) page_item_42 image_ok
    (Ok (response 200 EmptyString [] no_json)).

(** A catalog page without any item. *)
Definition world_no_item : World :=
  world credentials (Ok page_response) page_no_item image_ok (api_ok true).

(* ===================================================================== *)
(** ** Lemmas on strings, patterns and tree search *)

Lemma after_prefix_Some p s r :
  after_prefix p s = Some r ↔ s = p +:+ r.
Proof.
  revert s. induction p as [|b p IH]; intros s; simpl.
  - split; [intros [= ->]; reflexivity | intros ->; reflexivity].
  - destruct s as [|a s]; [split; discriminate|].
    destruct (Ascii.eqb_spec a b) as [->|Hne].
    + rewrite IH. split; [intros ->; reflexivity | intros [= ->]; reflexivity].
    + split; [discriminate | intros [= ? ?]; contradiction].
Qed.

Lemma item_prefix_id_spec id :
  item_prefix_id id = true ↔
  ∃ d rest, id = "item_" +:+ String d rest ∧ Str.is_ascii_digit d = true.
Proof.
  unfold item_prefix_id. split.
  - destruct (after_prefix "item_" id) as [[|d rest]|] eqn:E; try discriminate.
    intros Hd. exists d, rest. split; [by apply after_prefix_Some | done].
  - intros (d & rest & Hid & Hd).
    apply after_prefix_Some in Hid. by rewrite Hid.
Qed.

Lemma item_exact_id_spec id :
  item_exact_id id = true ↔
  ∃ ds, id = "item_" +:+ ds ∧ ds ≠ EmptyString
        ∧ Str.forall_chars Str.is_ascii_digit ds = true.
Proof.
  unfold item_exact_id. split.
  - destruct (after_prefix "item_" id) as [ds|] eqn:E; [|discriminate].
    intros [Hne Hds]%andb_true_iff. exists ds.
    split; [by apply after_prefix_Some|]. split; [|done].
    by destruct ds.
  - intros (ds & Hid & Hne & Hds).
    apply after_prefix_Some in Hid. rewrite Hid, Hds.
    by destruct ds.
Qed.

(** Past position 0 a pattern that begins with [^] matches nowhere. *)
Lemma search_from_anchored p s :
  Re.search_from (Re.AT_BEGINNING :: p) false s = false.
Proof. induction s as [|c s IH]; simpl; [reflexivity | exact IH]. Qed.

(** The compiled pattern accepts exactly the ids that begin with ["item_"]
    and a digit. *)
Lemma item_id_re_search id :
  Re.search item_id_re id = item_prefix_id id.
Proof.
  unfold Re.search, item_id_re, item_prefix_id.
  assert (Hhere : ∀ s, Re.search_from
            (Re.AT_BEGINNING :: Re.literal "item_"
               ++ [Re.MAX_REPEAT_1 Re.CATEGORY_DIGIT]) true s
          = Re.match_here (Re.literal "item_"
               ++ [Re.MAX_REPEAT_1 Re.CATEGORY_DIGIT]) true s).
  { intros [|c s]; simpl;
      rewrite ?search_from_anchored, ?orb_false_r; reflexivity. }
  rewrite Hhere. clear Hhere. simpl.
  repeat (destruct id as [|? id]; simpl; [reflexivity|];
          match goal with
          | |- context [Ascii.eqb ?a ?b] => destruct (Ascii.eqb a b); simpl
          end; [|reflexivity]).
  destruct id as [|d id]; [reflexivity|].
  destruct (Str.is_ascii_digit d); simpl; [|reflexivity].
  by rewrite orb_true_r.
Qed.

Lemma first_match_ext {A} (f g : A → bool) l :
  (∀ x, f x = g x) → Bs4.first_match f l = Bs4.first_match g l.
Proof.
  intros Hfg. induction l as [|x l IH]; simpl; [reflexivity|].
  by rewrite Hfg, IH.
Qed.

Lemma first_match_None {A} (f : A → bool) l :
  Bs4.first_match f l = None ↔ Forall (λ y, f y = false) l.
Proof.
  induction l as [|x l IH]; simpl.
  - split; [constructor | reflexivity].
  - destruct (f x) eqn:E.
    + split; [discriminate | intros H; inversion H; congruence].
    + rewrite IH. split; [by constructor | by inversion 1].
Qed.

Lemma first_match_Some {A} (f : A → bool) l x :
  Bs4.first_match f l = Some x ↔ first_such f l x.
Proof.
  unfold first_such. induction l as [|y l IH]; simpl.
  - split; [discriminate | intros (pre & post & H & _); by destruct pre].
  - destruct (f y) eqn:E.
    + split.
      * intros [= ->]. exists [], l. by repeat split.
      * intros ([|z pre] & post & Heq & Hx & Hpre).
        -- by injection Heq as ->.
        -- injection Heq as -> _. inversion Hpre; congruence.
    + rewrite IH. split.
      * intros (pre & post & -> & Hx & Hpre).
        exists (y :: pre), post. repeat split; [done | by constructor].
      * intros ([|z pre] & post & Heq & Hx & Hpre).
        -- injection Heq as -> _. congruence.
        -- injection Heq as -> ->. exists pre, post.
           repeat split; [done | by inversion Hpre].
Qed.

Lemma search_tag_name name e :
  Bs4.search_tag {| Bs4.strainer_name := name; Bs4.strainer_attrs := [] |} e
  = is_tag name e.
Proof. destruct e; simpl; [by rewrite andb_true_r | reflexivity]. Qed.

Lemma search_tag_item_div e :
  Bs4.search_tag {| Bs4.strainer_name := "div";
                    Bs4.strainer_attrs := [("id", item_id_re)] |} e
  = is_item_div e.
Proof.
  unfold is_item_div, id_satisfies. destruct e as [n a cs|k s]; simpl.
  - unfold Bs4.attr_matches; simpl. rewrite andb_true_r.
    destruct (a !! "id") as [v|]; [by rewrite item_id_re_search | reflexivity].
  - reflexivity.
Qed.

(** [find] by name is the first descendant of that name; the search for the
    item container is the first descendant that is an item div. *)
Lemma find_name e name :
  Bs4.find e name [] = Bs4.first_match (is_tag name) (Bs4.descendants e).
Proof. unfold Bs4.find. apply first_match_ext, search_tag_name. Qed.

Lemma find_item_div soup :
  Bs4.find soup "div" [("id", item_id_re)]
  = Bs4.first_match is_item_div (Bs4.descendants soup).
Proof. unfold Bs4.find. apply first_match_ext, search_tag_item_div. Qed.

(** [get_first_item] extracts, then normalises. *)
Lemma first_item_decompose w url soup :
  first_item w url soup
  = '(src, caption) ← extract_item soup;
    src' ← normalize_src w url src;
    Ok (src', caption).
Proof.
  unfold first_item, extract_item, normalize_src.
  destruct (Bs4.find soup "div" _) as [div|]; [|reflexivity].
  destruct (Bs4.find div "img" _) as [img|]; [|reflexivity].
  destruct (negb _); [reflexivity|].
  destruct (Bs4.getitem img "src") as [v|e]; [|reflexivity].
  simpl.
  destruct (Str.startswith (Str.strip v) "//"); [reflexivity|].
  destruct (Str.startswith (Str.strip v) "/"); reflexivity.
Qed.

Lemma first_such_find_name e name x :
  first_such (is_tag name) (Bs4.descendants e) x → Bs4.find e name [] = Some x.
Proof. intros H. rewrite find_name. by apply first_match_Some. Qed.

Lemma first_such_find_item_div soup div :
  first_such is_item_div (Bs4.descendants soup) div →
  Bs4.find soup "div" [("id", item_id_re)] = Some div.
Proof. intros H. rewrite find_item_div. by apply first_match_Some. Qed.

Lemma partition_head c s c0 l r :
  Str.partition c s = Some (String c0 l, r) → ∃ s', s = String c0 s'.
Proof.
  destruct s as [|a s]; simpl; [discriminate|].
  destruct (Ascii.eqb a c); [discriminate|].
  destruct (Str.partition c s) as [[l' r']|]; [|discriminate].
  intros [= -> _ _]. by exists s.
Qed.

Lemma has_scheme_not_slash src :
  has_scheme src = true → Str.startswith src "/" = false.
Proof.
  unfold has_scheme.
  destruct (Str.partition ":" src) as [[[|c0 pre] r]|] eqn:E; try discriminate.
  intros [Halpha _]%andb_true_iff.
  apply partition_head in E as [s' ->]. simpl.
  destruct (Ascii.eqb_spec c0 "/") as [->|]; [|reflexivity].
  vm_compute in Halpha. discriminate Halpha.
Qed.

Lemma startswith_shorter s :
  Str.startswith s "/" = false → Str.startswith s "//" = false.
Proof.
  destruct s as [|a s]; simpl; [reflexivity|].
  destruct (Ascii.eqb a "/"); simpl; [discriminate | reflexivity].
Qed.

(* ===================================================================== *)
(** ** The item container and the item record *)

(** C1, refuted as stated: a page can contain the element [id="item_42"]
    with its image [/path/a.jpg] and caption ["Caption Text"] and still
    yield another record, because the first item div of the page wins. Here
    [item_7] precedes [item_42] and its record is the one returned. *)
Lemma extract_item_earlier_div_wins :
  contains_item "item_42" "/path/a.jpg" "Caption Text" page_two_items = true
  ∧ extract_item page_two_items = Ok ("/other/b.jpg", "Other")
  ∧ extract_item page_two_items ≠ Ok ("/path/a.jpg", "Caption Text").
Proof.
  split; [vm_compute; reflexivity|].
  assert (E : extract_item page_two_items = Ok ("/other/b.jpg", "Other"))
    by (vm_compute; reflexivity).
  split; [exact E|]. rewrite E. discriminate.
Qed.

(** C1, amended: when the first div of the page (in document order) whose id
    begins with ["item_"] and a digit is the element [id="item_42"], its
    first [img] has the src ["/path/a.jpg"] and its first [dd] is
    [<dd>Caption Text</dd>], the extracted record is
    [("/path/a.jpg", "Caption Text")], and [get_first_item] returns that
    reference joined onto the page URL together with the caption. *)
Theorem extract_item_42 (w : World) (url : string)
    (soup div img dd : Bs4.PageElement) (pre post : list Bs4.PageElement)
    (dd_attrs : gmap string string) :
  Bs4.descendants soup = pre ++ div :: post →
  Forall (λ e, is_item_div e = false) pre →
  is_tag "div" div = true →
  Bs4.get div "id" = Some "item_42" →
  first_such (is_tag "img") (Bs4.descendants div) img →
  Bs4.get img "src" = Some "/path/a.jpg" →
  first_such (is_tag "dd") (Bs4.descendants div) dd →
  dd = Bs4.Tag "dd" dd_attrs [txt "Caption Text"] →
  extract_item soup = Ok ("/path/a.jpg", "Caption Text")
  ∧ first_item w url soup
    = (u ← Urllib.urljoin (ip_address w) url "/path/a.jpg";
       Ok (u, "Caption Text")).
Proof.
  intros Hsoup Hpre Hdiv Hid Himg Hsrc Hdd ->.
  assert (Hitem : is_item_div div = true).
  { unfold is_item_div, id_satisfies. by rewrite Hdiv, Hid. }
  assert (Hex : extract_item soup = Ok ("/path/a.jpg", "Caption Text")).
  { unfold extract_item.
    rewrite (first_such_find_item_div soup div) by (by exists pre, post).
    rewrite (first_such_find_name _ _ _ Himg).
    unfold Bs4.getitem. rewrite Hsrc. simpl.
    rewrite (first_such_find_name _ _ _ Hdd). reflexivity. }
  split; [exact Hex|].
  rewrite first_item_decompose, Hex. reflexivity.
Qed.

Lemma extract_item_42_witness :
  extract_item page_item_42 = Ok ("/path/a.jpg", "Caption Text")
  ∧ first_item (world credentials (Ok page_response) page_item_42
                  image_ok (api_ok true)) URL page_item_42
    = Ok ("https://www.nogizaka46shop.com/path/a.jpg", "Caption Text").
Proof.
  apply (extract_item_42 _ URL page_item_42 div_item_42
           (img_src "/path/a.jpg") (Bs4.Tag "dd" ∅ [txt "Caption Text"])
           [] [img_src "/path/a.jpg"; Bs4.Tag "dd" ∅ [txt "Caption Text"];
               txt "Caption Text"] ∅).
  - reflexivity.
  - constructor.
  - reflexivity.
  - reflexivity.
  - exists [], [Bs4.Tag "dd" ∅ [txt "Caption Text"]; txt "Caption Text"].
    repeat split. constructor.
  - reflexivity.
  - exists [img_src "/path/a.jpg"], [txt "Caption Text"].
    repeat split. repeat constructor.
  - reflexivity.
Defined.

(** C2, refuted as stated: the pattern is anchored at the start only, so a
    div whose id has characters after the digits is selected, although no
    id of the page is ["item_"] followed by digits and nothing else. *)
Lemma item_div_trailing_characters :
  Bs4.find page_item_42abc "div" [("id", item_id_re)] = Some div_item_42abc
  ∧ Bs4.get div_item_42abc "id" = Some "item_42abc"
  ∧ item_exact_id "item_42abc" = false
  ∧ Bs4.first_match (id_satisfies item_exact_id)
      (Bs4.descendants page_item_42abc) = None.
Proof. repeat split; vm_compute; reflexivity. Qed.

(** C2, amended: the element selected is the first [div] in document order
    whose id begins with ["item_"] followed by at least one digit (the
    pattern [^item_\d+], with no anchor at the end); when the search finds
    nothing, the page has no such div. *)
Theorem item_div_first_prefix_match (soup : Bs4.PageElement) :
  match Bs4.find soup "div" [("id", item_id_re)] with
  | Some div => first_such is_item_div (Bs4.descendants soup) div
  | None => Forall (λ e, is_item_div e = false) (Bs4.descendants soup)
  end.
Proof.
  rewrite find_item_div.
  destruct (Bs4.first_match is_item_div (Bs4.descendants soup)) as [div|] eqn:E.
  - by apply first_match_Some.
  - by apply first_match_None.
Qed.

(* ===================================================================== *)
(** ** The normalised reference *)

(** C3: the three cases of lines 42-46. A reference that starts with [//]
    gets [https:] in front; one that starts with a single [/] is the
    [urljoin] of the page URL and the reference; one that carries a scheme
    is returned as it is. The three references of the specification give
    the three URLs it names. *)
Theorem normalize_src_contract (w : World) (url src : string) :
  (Str.startswith src "//" = true →
     normalize_src w url src = Ok ("https:" +:+ src))
  ∧ (Str.startswith src "/" = true → Str.startswith src "//" = false →
     normalize_src w url src = Urllib.urljoin (ip_address w) url src)
  ∧ (has_scheme src = true → normalize_src w url src = Ok src)
  ∧ normalize_src w "https://example.com/category/426"
      "//cdn.example.com/x.jpg" = Ok "https://cdn.example.com/x.jpg"
  ∧ normalize_src w "https://example.com/category/426"
      "/images/x.jpg" = Ok "https://example.com/images/x.jpg"
  ∧ normalize_src w "https://example.com/category/426"
      "https://cdn.example.com/x.jpg" = Ok "https://cdn.example.com/x.jpg".
Proof.
  unfold normalize_src. repeat split.
  - by intros ->.
  - by intros -> ->.
  - intros Hs%has_scheme_not_slash.
    by rewrite (startswith_shorter _ Hs), Hs.
Qed.

Lemma normalize_src_contract_witness :
  normalize_src (world credentials (Ok page_response) page_item_42
                   image_ok (api_ok true))
    URL "//img.example.com/p.png" = Ok "https://img.example.com/p.png"
  ∧ normalize_src (world credentials (Ok page_response) page_item_42
                     image_ok (api_ok true))
      URL "/images/x.jpg" = Ok "https://www.nogizaka46shop.com/images/x.jpg"
  ∧ normalize_src (world credentials (Ok page_response) page_item_42
                     image_ok (api_ok true))
      URL "http://cdn.example.com/x.jpg" = Ok "http://cdn.example.com/x.jpg".
Proof.
  split; [|split].
  - apply (proj1 (normalize_src_contract _ URL "//img.example.com/p.png")).
    reflexivity.
  - rewrite (proj1 (proj2 (normalize_src_contract _ URL "/images/x.jpg")));
      reflexivity.
  - apply (proj1 (proj2 (proj2
             (normalize_src_contract _ URL "http://cdn.example.com/x.jpg")))).
    reflexivity.
Defined.

(* ===================================================================== *)
(** ** What [get_first_item] raises and what it returns *)

Section urllib_raises.

Variable orc : string → option Urllib.ip_version.

Lemma check_bracketed_host_raises h e :
  Urllib._check_bracketed_host orc h = Raise e → is_value_error e.
Proof.
  unfold Urllib._check_bracketed_host.
  destruct (Str.startswith h "v").
  - destruct (negb _); [by intros [= <-] | discriminate].
  - destruct (orc h) as [[]|]; try discriminate; by intros [= <-].
Qed.

Lemma check_bracketed_netloc_raises n e :
  Urllib._check_bracketed_netloc orc n = Raise e → is_value_error e.
Proof.
  unfold Urllib._check_bracketed_netloc.
  destruct (Urllib.partition3 "[" _) as [[bb have] br].
  destruct have.
  - destruct (Str.truthy bb); [by intros [= <-]|].
    destruct (Urllib.partition3 "]" br) as [[hn ?] port].
    destruct (_ && _); [by intros [= <-]|].
    apply check_bracketed_host_raises.
  - destruct (Urllib.partition3 ":" _) as [[hn ?] port].
    apply check_bracketed_host_raises.
Qed.

Lemma urlsplit_raises url scheme e :
  Urllib.urlsplit orc url scheme = Raise e → is_value_error e.
Proof.
  unfold Urllib.urlsplit.
  set (u := Urllib.remove_unsafe _).
  set (sch := Urllib.remove_unsafe _).
  destruct (match Str.partition ":" u with
            | Some (String c0 pre, post) => _
            | _ => _ end) as [sch' u'].
  match goal with
  | |- context [mbind _ ?m] => destruct m as [[n0 u0]|e'] eqn:E
  end; simpl.
  { destruct (Str.partition "#" u0) as [[? ?]|];
      destruct (Str.partition "?" _) as [[? ?]|]; discriminate. }
  intros [= <-]. revert E.
  destruct (Str.startswith u' "//"); [|discriminate].
  destruct (Urllib._splitnetloc u' 2) as [n u1].
  destruct (_ || _); [by intros [= <-]|].
  destruct (_ && _); [|discriminate].
  destruct (Urllib._check_bracketed_netloc orc n) as [[]|e0] eqn:E;
    [discriminate|].
  intros [= <-]. by apply check_bracketed_netloc_raises in E.
Qed.

Lemma urlparse_raises url scheme e :
  Urllib.urlparse orc url scheme = Raise e → is_value_error e.
Proof.
  unfold Urllib.urlparse.
  destruct (Urllib.urlsplit orc url scheme) as [[[[[sc n] u] q] f]|e0] eqn:E.
  - simpl. destruct (_ && _); [destruct (Urllib._splitparams u)|];
      discriminate.
  - intros [= <-]. by apply urlsplit_raises in E.
Qed.

Lemma urljoin_raises base url e :
  Urllib.urljoin orc base url = Raise e → is_value_error e.
Proof.
  unfold Urllib.urljoin.
  destruct (negb (Str.truthy base)); [discriminate|].
  destruct (negb (Str.truthy url)); [discriminate|].
  destruct (Urllib.urlparse orc base _)
    as [[[[[[bs bn] bp] bpa] bq] bf]|e0] eqn:Eb.
  2:{ intros [= <-]. by apply urlparse_raises in Eb. }
  simpl.
  destruct (Urllib.urlparse orc url bs)
    as [[[[[[sc n] pa] par] q] f]|e0] eqn:Eu.
  2:{ intros [= <-]. by apply urlparse_raises in Eu. }
  simpl.
  destruct (_ || _); [discriminate|].
  destruct (_ && _); [discriminate|].
  destruct (_ && _); discriminate.
Qed.

End urllib_raises.

(** The three network steps, run from a trace [tr]. *)
Lemma get_first_item_run w url tr :
  get_first_item w url tr
  = match http_get w url 15 with
    | Raise e => (Raises e, tr ++ [GET url 15])
    | Ok resp =>
        match raise_for_status resp with
        | Raise e => (Raises e, tr ++ [GET url 15])
        | Ok _ =>
            match first_item w url (html_parser w (text resp)) with
            | Ok r => (Returns r, tr ++ [GET url 15])
            | Raise e => (Raises e, tr ++ [GET url 15])
            end
        end
    end.
Proof.
  unfold get_first_item, requests_get, mbind, io_bind, emit, lift.
  destruct (http_get w url 15) as [resp|e]; [|reflexivity].
  destruct (raise_for_status resp); [|reflexivity].
  destruct (first_item _ _ _); reflexivity.
Qed.

Lemma download_image_bytes_run w image_url tr :
  download_image_bytes w image_url tr
  = match http_get w image_url 20 with
    | Raise e => (Raises e, tr ++ [GET image_url 20])
    | Ok resp =>
        match raise_for_status resp with
        | Raise e => (Raises e, tr ++ [GET image_url 20])
        | Ok _ => (Returns (content resp), tr ++ [GET image_url 20])
        end
    end.
Proof.
  unfold download_image_bytes, requests_get, mbind, io_bind, emit, lift, mret,
    io_ret.
  destruct (http_get w image_url 20) as [resp|e]; [|reflexivity].
  destruct (raise_for_status resp); reflexivity.
Qed.

Lemma send_photo_telegram_run w bot_token chat_id image_bytes caption tr :
  let api := "https://api.telegram.org/bot" +:+ bot_token +:+ "/sendPhoto" in
  let files : gmap string (string * list Byte.byte) :=
    {[ "photo" := ("image.jpg", image_bytes) ]} in
  let data : gmap string string :=
    <[ "chat_id" := chat_id ]> {[ "caption" := caption ]} in
  send_photo_telegram w bot_token chat_id image_bytes caption tr
  = match http_post w api data files 30 with
    | Raise e => (Raises e, tr ++ [POST api data files 30])
    | Ok resp =>
        match raise_for_status resp with
        | Raise e => (Raises e, tr ++ [POST api data files 30])
        | Ok _ =>
            match json resp with
            | Ok res => (Returns res, tr ++ [POST api data files 30])
            | Raise e => (Raises e, tr ++ [POST api data files 30])
            end
        end
    end.
Proof.
  intros api files data.
  unfold send_photo_telegram, requests_post, mbind, io_bind, emit, lift.
  fold api. fold files. fold data.
  destruct (http_post w api data files 30) as [resp|e]; [|reflexivity].
  destruct (raise_for_status resp); [|reflexivity].
  destruct (json resp); reflexivity.
Qed.

Lemma raise_for_status_error resp :
  (400 <=? status_code resp) && (status_code resp <? 600) = true →
  raise_for_status resp = Raise (HTTPError (status_code resp)).
Proof.
  unfold raise_for_status.
  destruct (Z.leb_spec 400 (status_code resp)),
    (Z.ltb_spec (status_code resp) 500),
    (Z.leb_spec 500 (status_code resp)),
    (Z.ltb_spec (status_code resp) 600); simpl;
    try reflexivity; try discriminate; lia.
Qed.

Lemma strip_all_space v :
  Str.forall_chars Str.isspace v = true → Str.strip v = EmptyString.
Proof.
  unfold Str.strip, Str.strip_by.
  induction v as [|c v IH]; simpl; [reflexivity|].
  intros [Hc Hv]%andb_true_iff. rewrite Hc. by apply IH.
Qed.




Lemma first_item_with_src w url soup div img v :
  first_such is_item_div (Bs4.descendants soup) div →
  first_such (is_tag "img") (Bs4.descendants div) img →
  Bs4.get img "src" = Some v → v ≠ EmptyString →
  extract_item soup = Ok (Str.strip v, caption_of div)
  ∧ first_item w url soup
    = (u ← normalize_src w url (Str.strip v); Ok (u, caption_of div)).
Proof.
  intros Hdiv Himg Hsrc Hv.
  assert (Hex : extract_item soup = Ok (Str.strip v, caption_of div)).
  { unfold extract_item.
    rewrite (first_such_find_item_div _ _ Hdiv).
    rewrite (first_such_find_name _ _ _ Himg).
    unfold Bs4.getitem. rewrite Hsrc. simpl.
    destruct v; [done | reflexivity]. }
  split; [exact Hex|]. by rewrite first_item_decompose, Hex.
Qed.



(* ===================================================================== *)
(** ** Absolute references *)

(** C4, evaluated where it fails: a src that is a relative path without a
    leading slash passes through lines 42-46 unchanged, so the reference
    [get_first_item] returns carries no scheme. *)
Lemma get_first_item_relative_reference :
  get_first_item
    (world credentials (Ok page_response) page_relative_src
       image_ok (api_ok true)) URL []
  = (Returns ("images/x.jpg", EmptyString), [GET URL 15])
  ∧ has_scheme "images/x.jpg" = false.
Proof. split; vm_compute; reflexivity. Qed.

(* ===================================================================== *)
(** ** Missing structure *)





(** C10: when the first image of the item container has a [src] made only
    of whitespace, [get_first_item] does not raise: the test of line 37 sees
    the untrimmed, non-empty attribute, trimming leaves the empty string,
    neither case of lines 42-46 applies to it, and the empty string is
    returned as the image URL. *)
Theorem whitespace_src_empty_url (w : World) (url : string) (resp : Response)
    (div img : Bs4.PageElement) (v : string) :
  http_get w url 15 = Ok resp →
  raise_for_status resp = Ok () →
  first_such is_item_div (Bs4.descendants (html_parser w (text resp))) div →
  first_such (is_tag "img") (Bs4.descendants div) img →
  Bs4.get img "src" = Some v →
  v ≠ EmptyString →
  Str.forall_chars Str.isspace v = true →
  first_item w url (html_parser w (text resp))
  = Ok (EmptyString, caption_of div)
  ∧ get_first_item w url []
    = (Returns (EmptyString, caption_of div), [GET url 15]).
Proof.
  intros Hget Hst Hdiv Himg Hsrc Hv Hsp.
  assert (Hfi : first_item w url (html_parser w (text resp))
                = Ok (EmptyString, caption_of div)).
  { destruct (first_item_with_src w url _ div img v Hdiv Himg Hsrc Hv)
      as [_ ->].
    by rewrite (strip_all_space v Hsp). }
  split; [exact Hfi|].
  by rewrite get_first_item_run, Hget, Hst, Hfi.
Qed.

Lemma whitespace_src_empty_url_witness :
  first_item (world credentials (Ok page_response) page_blank_src
                image_ok (api_ok true)) URL page_blank_src
  = Ok (EmptyString, "Cap")
  ∧ get_first_item (world credentials (Ok page_response) page_blank_src
                      image_ok (api_ok true)) URL []
    = (Returns (EmptyString, "Cap"), [GET URL 15]).
Proof.
  apply (whitespace_src_empty_url
           (world credentials (Ok page_response) page_blank_src
              image_ok (api_ok true))
           URL page_response
           (item_div "item_1" [img_src "  "; Bs4.Tag "dd" ∅ [txt "Cap"]])
           (img_src "  ") "  ").
  - reflexivity.
  - reflexivity.
  - exists [], [img_src "  "; Bs4.Tag "dd" ∅ [txt "Cap"]; txt "Cap"].
    repeat split. constructor.
  - exists [], [Bs4.Tag "dd" ∅ [txt "Cap"]; txt "Cap"].
    repeat split. constructor.
  - reflexivity.
  - discriminate.
  - reflexivity.
Defined.

(* ===================================================================== *)
(** ** The entry point *)

(** [main] with both credentials set, stage by stage. *)
Lemma main_with_credentials w token chat_id :
  os_getenv w "TELEGRAM_BOT_TOKEN" = Some token →
  os_getenv w "TELEGRAM_CHAT_ID" = Some chat_id →
  token ≠ EmptyString → chat_id ≠ EmptyString →
  main w []
  = match get_first_item w URL [] with
    | (Raises e, tr) =>
        (Exits 1, tr ++ [PRINT [PStr "Error fetching/parsing page:"; PExn e]])
    | (Exits c, tr) => (Exits c, tr)
    | (Returns (image_url, caption), tr) =>
        match download_image_bytes w image_url
                (tr ++ found_lines image_url caption) with
        | (Raises e, tr) =>
            (Exits 1, tr ++ [PRINT [PStr "Error downloading image:"; PExn e]])
        | (Exits c, tr) => (Exits c, tr)
        | (Returns image_bytes, tr) =>
            match send_photo_telegram w token chat_id image_bytes caption tr with
            | (Raises e, tr) =>
                (Exits 1,
                 tr ++ [PRINT [PStr "Error sending to Telegram:"; PExn e]])
            | (Exits c, tr) => (Exits c, tr)
            | (Returns res, tr) =>
                match py_get res "ok" with
                | Ok ok =>
                    (Returns (),
                     tr ++ [PRINT [PStr "Telegram API returned ok="; PObj ok]])
                | Raise e => (Raises e, tr)
                end
            end
        end
    end.
Proof.
  intros Ht Hc Htn Hcn. unfold main. rewrite Ht, Hc.
  destruct token as [|t0 token]; [done|].
  destruct chat_id as [|c0 chat_id]; [done|].
  cbn [Str.truthy Str.is_empty negb orb].
  unfold mbind, io_bind, try_except, print, emit, sys_exit, lift, found_lines.
  destruct (get_first_item w URL []) as [[[image_url caption]|e|c] tr];
    [|reflexivity|reflexivity].
  rewrite <- app_assoc. cbn [app].
  destruct (download_image_bytes w image_url _) as [[image_bytes|e|c] tr2];
    [|reflexivity|reflexivity].
  destruct (send_photo_telegram w _ _ image_bytes caption tr2)
    as [[res|e|c] tr3]; [|reflexivity|reflexivity].
  destruct (py_get res "ok"); reflexivity.
Qed.

(** C7: when either credential is absent or empty the entry point prints the
    usage line and ends with exit status 2; the usage line is the only
    event of the run, so no request is sent. *)
Theorem main_missing_credentials (w : World) :
  opt_truthy (os_getenv w "TELEGRAM_BOT_TOKEN") = false
  ∨ opt_truthy (os_getenv w "TELEGRAM_CHAT_ID") = false →
  run w = (2, [usage_line]).
Proof.
  unfold run, main, opt_truthy.
  destruct (os_getenv w "TELEGRAM_BOT_TOKEN") as [token|];
    destruct (os_getenv w "TELEGRAM_CHAT_ID") as [chat_id|];
    try reflexivity.
  intros [H|H]; rewrite H; simpl; rewrite ?orb_true_r; reflexivity.
Qed.

Lemma main_missing_credentials_witness :
  run world_no_token = (2, [usage_line])
  ∧ run world_empty_chat_id = (2, [usage_line]).
Proof.
  split.
  - apply (main_missing_credentials world_no_token). left. reflexivity.
  - apply (main_missing_credentials world_empty_chat_id). right. reflexivity.
Defined.

Lemma get_first_item_trace w url tr :
  (get_first_item w url tr).2 = tr ++ [GET url 15].
Proof.
  rewrite get_first_item_run.
  destruct (http_get w url 15) as [resp|e]; [|reflexivity].
  destruct (raise_for_status resp); [|reflexivity].
  destruct (first_item _ _ _); reflexivity.
Qed.

Lemma get_first_item_returns w image_url caption :
  (get_first_item w URL []).1 = Returns (image_url, caption) →
  get_first_item w URL [] = (Returns (image_url, caption), [GET URL 15]).
Proof.
  intros H. pose proof (get_first_item_trace w URL []) as Htr.
  destruct (get_first_item w URL []) as [o tr]. simpl in *. by subst.
Qed.

(** A failed request makes its step raise. *)
Lemma http_failure_step r :
  http_failure r = true →
  ∃ e, match r with
       | Raise e' => e' = e
       | Ok resp => raise_for_status resp = Raise e
       end.
Proof.
  destruct r as [resp|e]; simpl; [|by exists e].
  intros H. exists (HTTPError (status_code resp)).
  by apply raise_for_status_error.
Qed.

(** C8, refuted as stated: a status outside the 2xx class is not always a
    failure of the step. The image host answers 304; [raise_for_status]
    raises on 400..599 only, so the empty body goes on to the notifier and
    the run ends with exit status 0. *)
Lemma download_not_modified_goes_on :
  http_get world_not_modified "https://www.nogizaka46shop.com/path/a.jpg" 20
  = Ok not_modified
  ∧ success_status (status_code not_modified) = false
  ∧ run world_not_modified
    = (0, GET URL 15
          :: found_lines "https://www.nogizaka46shop.com/path/a.jpg"
               "Caption Text"
          ++ [GET "https://www.nogizaka46shop.com/path/a.jpg" 20;
              send_photo_request "123:abc" "-100" [] "Caption Text";
              PRINT [PStr "Telegram API returned ok="; PObj (PyBool true)]]).
Proof. repeat split; vm_compute; reflexivity. Qed.

(** C8, amended: when the page fetch, the image download or the notify step
    fails, that is when no response arrives or the status is in 400..599,
    the entry point prints an error and ends with exit status 1, and the
    trace of the run shows that no later step was started. Other statuses
    outside 2xx, such as 304, are not failures of a step. *)
Theorem main_failed_step_exits_1 (w : World) (token chat_id : string) :
  os_getenv w "TELEGRAM_BOT_TOKEN" = Some token →
  os_getenv w "TELEGRAM_CHAT_ID" = Some chat_id →
  token ≠ EmptyString →
  chat_id ≠ EmptyString →
  (http_failure (http_get w URL 15) = true →
     ∃ e, run w
          = (1, [GET URL 15;
                 PRINT [PStr "Error fetching/parsing page:"; PExn e]]))
  ∧ (∀ image_url caption,
       (get_first_item w URL []).1 = Returns (image_url, caption) →
       http_failure (http_get w image_url 20) = true →
       ∃ e, run w
            = (1, GET URL 15 :: found_lines image_url caption
                  ++ [GET image_url 20;
                      PRINT [PStr "Error downloading image:"; PExn e]]))
  ∧ (∀ image_url caption image,
       (get_first_item w URL []).1 = Returns (image_url, caption) →
       http_get w image_url 20 = Ok image →
       raise_for_status image = Ok () →
       http_failure
         (send_photo_answer w token chat_id (content image) caption) = true →
       ∃ e, run w
            = (1, GET URL 15 :: found_lines image_url caption
                  ++ [GET image_url 20;
                      send_photo_request token chat_id (content image) caption;
                      PRINT [PStr "Error sending to Telegram:"; PExn e]])).
Proof.
  intros Ht Hc Htn Hcn. unfold run.
  rewrite (main_with_credentials w token chat_id Ht Hc Htn Hcn).
  split; [|split].
  - intros [e He]%http_failure_step. exists e.
    rewrite get_first_item_run.
    destruct (http_get w URL 15) as [resp|e']; [by rewrite He | by subst].
  - intros image_url caption Hitem [e He]%http_failure_step. exists e.
    rewrite (get_first_item_returns w image_url caption Hitem).
    rewrite download_image_bytes_run.
    destruct (http_get w image_url 20) as [resp|e']; [by rewrite He | by subst].
  - intros image_url caption image Hitem Himage Hst [e He]%http_failure_step.
    exists e.
    rewrite (get_first_item_returns w image_url caption Hitem).
    rewrite download_image_bytes_run, Himage, Hst.
    rewrite send_photo_telegram_run. unfold send_photo_answer in He.
    cbv zeta.
    destruct (http_post w _ _ _ 30) as [resp|e']; [by rewrite He | by subst].
Qed.

Lemma main_failed_step_exits_1_witness :
  (∃ e, run world_page_down
        = (1, [GET URL 15;
               PRINT [PStr "Error fetching/parsing page:"; PExn e]]))
  ∧ (∃ e, run world_image_404
          = (1, GET URL 15
                :: found_lines "https://www.nogizaka46shop.com/path/a.jpg"
                     "Caption Text"
                ++ [GET "https://www.nogizaka46shop.com/path/a.jpg" 20;
                    PRINT [PStr "Error downloading image:"; PExn e]]))
  ∧ (∃ e, run world_api_500
          = (1, GET URL 15
                :: found_lines "https://www.nogizaka46shop.com/path/a.jpg"
                     "Caption Text"
                ++ [GET "https://www.nogizaka46shop.com/path/a.jpg" 20;
                    send_photo_request "123:abc" "-100" image_bytes_sample
                      "Caption Text";
                    PRINT [PStr "Error sending to Telegram:"; PExn e]])).
Proof.
  split; [|split].
  - apply (proj1 (main_failed_step_exits_1 world_page_down "123:abc" "-100"
                    eq_refl eq_refl ltac:(discriminate) ltac:(discriminate))).
    reflexivity.
  - apply (proj1 (proj2 (main_failed_step_exits_1 world_image_404
                           "123:abc" "-100" eq_refl eq_refl
                           ltac:(discriminate) ltac:(discriminate)))
             "https://www.nogizaka46shop.com/path/a.jpg" "Caption Text").
    + vm_compute. reflexivity.
    + reflexivity.
  - apply (proj2 (proj2 (main_failed_step_exits_1 world_api_500
                           "123:abc" "-100" eq_refl eq_refl
                           ltac:(discriminate) ltac:(discriminate)))
             "https://www.nogizaka46shop.com/path/a.jpg" "Caption Text"
             (response 200 EmptyString image_bytes_sample no_json)).
    + vm_compute. reflexivity.
    + reflexivity.
    + reflexivity.
    + reflexivity.
Defined.

(** C9, refuted as stated: HTTP success and a body that parses are not
    enough. The messaging API answers 200 with a body that parses to a list;
    [res.get] of line 97 raises outside every [try], no [ok] line is
    printed, and the run ends with exit status 1. *)
Lemma list_answer_ends_with_1 :
  send_photo_answer world_api_list "123:abc" "-100" image_bytes_sample
    "Caption Text"
  = Ok (response 200 EmptyString [] (Ok (PyList [PyBool true])))
  ∧ success_status 200 = true
  ∧ run world_api_list
    = (1, GET URL 15
          :: found_lines "https://www.nogizaka46shop.com/path/a.jpg"
               "Caption Text"
          ++ [GET "https://www.nogizaka46shop.com/path/a.jpg" 20;
              send_photo_request "123:abc" "-100" image_bytes_sample
                "Caption Text"]).
Proof. repeat split; vm_compute; reflexivity. Qed.

(** C9, amended: when the POST to the messaging API succeeds and its body
    parses to an object, the process prints the [ok] field of that object
    ([None] when the object has none) and ends with exit status 0, whatever
    the field holds; an object that reports [ok: false] or has no [ok] is
    never escalated. *)
Theorem main_ok_field_not_fatal (w : World) (token chat_id : string)
    (image_url caption : string) (image resp : Response)
    (d : gmap string pyobj) :
  os_getenv w "TELEGRAM_BOT_TOKEN" = Some token →
  os_getenv w "TELEGRAM_CHAT_ID" = Some chat_id →
  token ≠ EmptyString →
  chat_id ≠ EmptyString →
  (get_first_item w URL []).1 = Returns (image_url, caption) →
  http_get w image_url 20 = Ok image →
  raise_for_status image = Ok () →
  send_photo_answer w token chat_id (content image) caption = Ok resp →
  raise_for_status resp = Ok () →
  json resp = Ok (PyDict d) →
  run w
  = (0, GET URL 15 :: found_lines image_url caption
        ++ [GET image_url 20;
            send_photo_request token chat_id (content image) caption;
            PRINT [PStr "Telegram API returned ok=";
                   PObj (default PyNone (d !! "ok"))]]).
Proof.
  intros Ht Hc Htn Hcn Hitem Himage Hst Hpost Hst' Hjson. unfold run.
  rewrite (main_with_credentials w token chat_id Ht Hc Htn Hcn).
  rewrite (get_first_item_returns w image_url caption Hitem).
  rewrite download_image_bytes_run, Himage, Hst.
  rewrite send_photo_telegram_run. unfold send_photo_answer in Hpost.
  cbv zeta. rewrite Hpost, Hst', Hjson. reflexivity.
Qed.

Lemma main_ok_field_not_fatal_witness :
  run (world_ok false)
  = (0, GET URL 15
        :: found_lines "https://www.nogizaka46shop.com/path/a.jpg"
             "Caption Text"
        ++ [GET "https://www.nogizaka46shop.com/path/a.jpg" 20;
            send_photo_request "123:abc" "-100" image_bytes_sample
              "Caption Text";
            PRINT [PStr "Telegram API returned ok="; PObj (PyBool false)]]).
Proof.
  change (PyBool false)
    with (default PyNone
            (({[ "ok" := PyBool false ]} : gmap string pyobj) !! "ok")).
  apply (main_ok_field_not_fatal (world_ok false) "123:abc" "-100"
           "https://www.nogizaka46shop.com/path/a.jpg" "Caption Text"
           (response 200 EmptyString image_bytes_sample no_json)
           (response 200 EmptyString [] (Ok (PyDict {[ "ok" := PyBool false ]})))
           {[ "ok" := PyBool false ]}).
  - reflexivity.
  - reflexivity.
  - discriminate.
  - discriminate.
  - vm_compute. reflexivity.
  - reflexivity.
  - reflexivity.
  - reflexivity.
  - reflexivity.
  - reflexivity.
Defined.

(* ===================================================================== *)
(** ** Further properties of the extraction *)

(** Trimmed text. *)
Lemma lstrip_starts_clean P s : starts_clean P (Str.lstrip_by P s) = true.
Proof.
  induction s as [|c s IH]; simpl; [reflexivity|].
  destruct (P c) eqn:E; [exact IH | simpl; by rewrite E].
Qed.

Lemma rstrip_starts_clean P s :
  starts_clean P s = true → starts_clean P (Str.rstrip_by P s) = true.
Proof.
  destruct s as [|c s]; simpl; [reflexivity|].
  intros H. apply negb_true_iff in H. rewrite H. simpl. by rewrite H.
Qed.

Lemma rstrip_ends_clean P s : ends_clean P (Str.rstrip_by P s) = true.
Proof.
  induction s as [|c s IH]; simpl; [reflexivity|].
  destruct (Str.rstrip_by P s) as [|d r] eqn:E.
  - destruct (P c) eqn:Ec; simpl; [reflexivity | by rewrite Ec].
  - rewrite andb_false_r. exact IH.
Qed.

Lemma starts_clean_lstrip P s :
  starts_clean P s = true → Str.lstrip_by P s = s.
Proof.
  destruct s as [|c s]; simpl; [reflexivity|].
  intros H. apply negb_true_iff in H. by rewrite H.
Qed.

Lemma ends_clean_rstrip P s :
  ends_clean P s = true → Str.rstrip_by P s = s.
Proof.
  induction s as [|c s IH]; [reflexivity|].
  destruct s as [|d s].
  - simpl. intros H. apply negb_true_iff in H. by rewrite H.
  - intros H. change (ends_clean P (String d s) = true) in H.
    specialize (IH H).
    change (Str.rstrip_by P (String c (String d s)))
      with (let r := Str.rstrip_by P (String d s) in
            if P c && Str.is_empty r then EmptyString else String c r).
    rewrite IH. simpl. by rewrite andb_false_r.
Qed.

Lemma clean_strip s :
  starts_clean Str.isspace s = true → ends_clean Str.isspace s = true →
  Str.strip s = s.
Proof.
  intros Hs He. unfold Str.strip, Str.strip_by.
  rewrite (starts_clean_lstrip _ _ Hs). by apply ends_clean_rstrip.
Qed.

Lemma strip_clean s :
  starts_clean Str.isspace (Str.strip s) = true
  ∧ ends_clean Str.isspace (Str.strip s) = true.
Proof.
  unfold Str.strip, Str.strip_by. split.
  - apply rstrip_starts_clean, lstrip_starts_clean.
  - apply rstrip_ends_clean.
Qed.

Lemma strip_idempotent s : Str.strip (Str.strip s) = Str.strip s.
Proof. destruct (strip_clean s). by apply clean_strip. Qed.

Lemma starts_clean_app P a b :
  a ≠ EmptyString → starts_clean P a = true → starts_clean P (a +:+ b) = true.
Proof. destruct a; [done | intros _ H; exact H]. Qed.

Lemma ends_clean_app P a b :
  b ≠ EmptyString → ends_clean P b = true → ends_clean P (a +:+ b) = true.
Proof.
  intros Hb He. induction a as [|c a IH]; [exact He|].
  simpl. destruct (a +:+ b) eqn:E; [|exact IH].
  destruct a; [change (b = EmptyString) in E; congruence | discriminate].
Qed.

Lemma app_nonempty a b : a ≠ EmptyString → a +:+ b ≠ EmptyString.
Proof. destruct a; [done | discriminate]. Qed.

(** The text collected from a list of nodes is empty or trimmed. *)
Lemma all_strings_strip_pieces l :
  Forall (λ p, p ≠ EmptyString ∧ starts_clean Str.isspace p = true
               ∧ ends_clean Str.isspace p = true)
         (Bs4.all_strings_strip l).
Proof.
  induction l as [|[n a cs|k s] l IH]; simpl; [constructor | exact IH |].
  destruct (strip_clean s) as [Hs He].
  destruct (Bs4.interesting_string_type k && Str.truthy (Str.strip s)) eqn:E;
    [|exact IH].
  apply andb_true_iff in E as [_ Ht].
  constructor; [|exact IH].
  repeat split; [|exact Hs|exact He].
  intros Hempty. by rewrite Hempty in Ht.
Qed.

Lemma join_pieces_clean l :
  Forall (λ p, p ≠ EmptyString ∧ starts_clean Str.isspace p = true
               ∧ ends_clean Str.isspace p = true) l →
  starts_clean Str.isspace (Str.join EmptyString l) = true
  ∧ ends_clean Str.isspace (Str.join EmptyString l) = true
  ∧ (l ≠ [] → Str.join EmptyString l ≠ EmptyString).
Proof.
  induction 1 as [|p l (Hne & Hs & He) Hl (IHs & IHe & IHne)].
  - by repeat split.
  - destruct l as [|q l].
    + simpl. by repeat split.
    + change (Str.join EmptyString (p :: q :: l))
        with (p +:+ Str.join EmptyString (q :: l)).
      repeat split.
      * by apply starts_clean_app.
      * apply ends_clean_app; [by apply IHne | exact IHe].
      * intros _. by apply app_nonempty.
Qed.

Lemma get_text_strip_trimmed e :
  Str.strip (Bs4.get_text_strip e) = Bs4.get_text_strip e.
Proof.
  unfold Bs4.get_text_strip.
  destruct (join_pieces_clean _
              (all_strings_strip_pieces (Bs4.descendants e))) as (Hs & He & _).
  by apply clean_strip.
Qed.

Lemma caption_of_trimmed div : Str.strip (caption_of div) = caption_of div.
Proof.
  unfold caption_of. destruct (Bs4.find div "dd" []);
    [apply get_text_strip_trimmed | reflexivity].
Qed.

(** When [extract_item] succeeds, so did each step of lines 32-40. *)
Lemma extract_item_Ok soup src caption :
  extract_item soup = Ok (src, caption) →
  ∃ div img v,
    first_such is_item_div (Bs4.descendants soup) div
    ∧ first_such (is_tag "img") (Bs4.descendants div) img
    ∧ Bs4.get img "src" = Some v ∧ v ≠ EmptyString
    ∧ src = Str.strip v ∧ caption = caption_of div.
Proof.
  unfold extract_item. rewrite find_item_div.
  destruct (Bs4.first_match is_item_div _) as [div|] eqn:Ediv; [|discriminate].
  rewrite find_name.
  destruct (Bs4.first_match (is_tag "img") _) as [img|] eqn:Eimg;
    [|discriminate].
  unfold Bs4.getitem.
  destruct (Bs4.get img "src") as [[|c v]|] eqn:Esrc; simpl; try discriminate.
  intros [= <- <-]. exists div, img, (String c v).
  apply first_match_Some in Ediv, Eimg. by repeat split.
Qed.

Lemma first_item_Ok w url soup u caption :
  first_item w url soup = Ok (u, caption) →
  ∃ src, extract_item soup = Ok (src, caption)
         ∧ normalize_src w url src = Ok u.
Proof.
  rewrite first_item_decompose.
  destruct (extract_item soup) as [[src c]|e]; simpl; [|discriminate].
  destruct (normalize_src w url src) as [u'|e] eqn:E;
    unfold mbind, result_bind; [|discriminate].
  intros [= <- <-]. by exists src.
Qed.

(** X1 (line 32): the compiled pattern [^item_\d+] accepts an id exactly
    when the id is ["item_"], one digit, and then any text at all. *)
Theorem item_id_re_accepts (id : string) :
  Re.search item_id_re id = true
  ↔ ∃ d rest, id = "item_" +:+ String d rest ∧ Str.is_ascii_digit d = true.
Proof. rewrite item_id_re_search. apply item_prefix_id_spec. Qed.

(** X2 (lines 32-51): the parse raises only the two [RuntimeError]s of the
    script or a [ValueError] of [urljoin]; the lookup [img["src"]] of line
    40 never raises [KeyError], because line 37 has seen the attribute. *)
Theorem first_item_raises_only (w : World) (url : string)
    (soup : Bs4.PageElement) (e : Exn) :
  first_item w url soup = Raise e →
  e = RuntimeError "No item div found on the page"
  ∨ e = RuntimeError "No image tag found in the first item div"
  ∨ is_value_error e.
Proof.
  unfold first_item.
  destruct (Bs4.find soup "div" _) as [div|]; [|intros [= <-]; by left].
  destruct (Bs4.find div "img" _) as [img|];
    [|intros [= <-]; right; by left].
  unfold Bs4.getitem.
  destruct (Bs4.get img "src") as [[|c v]|];
    cbn [opt_truthy Str.truthy Str.is_empty negb];
    try (intros [= <-]; right; by left).
  unfold mbind, result_bind.
  generalize (Str.strip (String c v)). intros src.
  destruct (Str.startswith src "//"); [discriminate|].
  destruct (Str.startswith src "/"); [|discriminate].
  destruct (Urllib.urljoin _ _ _) as [u|e'] eqn:E; [discriminate|].
  intros [= <-]. right; right. by apply urljoin_raises in E.
Qed.

Lemma first_item_raises_only_witness :
  RuntimeError "No image tag found in the first item div"
  = RuntimeError "No item div found on the page"
  ∨ RuntimeError "No image tag found in the first item div"
    = RuntimeError "No image tag found in the first item div"
  ∨ is_value_error (RuntimeError "No image tag found in the first item div").
Proof.
  apply (first_item_raises_only world_no_item URL page_no_src).
  reflexivity.
Defined.

(** X3 (lines 32-51): nothing outside the first item div matters. The
    result for a page is the result for the page cut down to that div. *)
Theorem first_item_only_first_div (w : World) (url : string)
    (soup div : Bs4.PageElement) :
  first_such is_item_div (Bs4.descendants soup) div →
  first_item w url soup = first_item w url (document [div]).
Proof.
  intros Hdiv.
  assert (Hcut : first_such is_item_div
                   (Bs4.descendants (document [div])) div).
  { destruct Hdiv as (pre & post & _ & Hd & _).
    exists [], (Bs4.descendants div ++ []). repeat split; [exact Hd|constructor]. }
  unfold first_item.
  rewrite (first_such_find_item_div _ _ Hdiv).
  by rewrite (first_such_find_item_div _ _ Hcut).
Qed.

Lemma first_item_only_first_div_witness :
  first_item world_no_item URL page_two_items
  = first_item world_no_item URL
      (document [item_div "item_7"
                   [img_src "/other/b.jpg"; Bs4.Tag "dd" ∅ [txt "Other"]]]).
Proof.
  apply (first_item_only_first_div world_no_item URL page_two_items).
  exists [], [img_src "/other/b.jpg"; Bs4.Tag "dd" ∅ [txt "Other"];
              txt "Other"; div_item_42; img_src "/path/a.jpg";
              Bs4.Tag "dd" ∅ [txt "Caption Text"]; txt "Caption Text"].
  repeat split. constructor.
Defined.

(** X4 (lines 42-51): in the two cases that need no join, the reference
    returned is absolute. When the trimmed src starts with [//] or already
    carries a scheme, the parse succeeds and its reference carries a
    scheme. *)
Theorem first_item_absolute_reference (w : World) (url : string)
    (soup : Bs4.PageElement) (src caption : string) :
  extract_item soup = Ok (src, caption) →
  Str.startswith src "//" = true ∨ has_scheme src = true →
  ∃ u, first_item w url soup = Ok (u, caption) ∧ has_scheme u = true.
Proof.
  intros Hex Hsrc. rewrite first_item_decompose, Hex. simpl.
  unfold normalize_src.
  destruct (Str.startswith src "//") eqn:E2.
  - exists ("https:" +:+ src). split; reflexivity.
  - destruct Hsrc as [?|Hs]; [discriminate|].
    rewrite (has_scheme_not_slash _ Hs). by exists src.
Qed.

Lemma first_item_absolute_reference_witness :
  ∃ u, first_item world_no_item URL page_no_dd = Ok (u, EmptyString)
       ∧ has_scheme u = true.
Proof.
  apply (first_item_absolute_reference world_no_item URL page_no_dd
           "//img.example.com/p.png" EmptyString).
  - reflexivity.
  - left. reflexivity.
Defined.

(** X5 (lines 40 and 49): the record is trimmed. The caption returned has
    no whitespace at either end, and neither has the reference read from
    the page before lines 42-46 rewrite it. *)
Theorem first_item_trimmed (w : World) (url : string)
    (soup : Bs4.PageElement) (u caption : string) :
  first_item w url soup = Ok (u, caption) →
  Str.strip caption = caption
  ∧ ∃ src, extract_item soup = Ok (src, caption) ∧ Str.strip src = src.
Proof.
  intros (src & Hex & _)%first_item_Ok.
  destruct (extract_item_Ok _ _ _ Hex) as (div & img & v & _ & _ & _ & _ & -> & ->).
  split; [apply caption_of_trimmed|].
  exists (Str.strip v). split; [exact Hex | apply strip_idempotent].
Qed.

Lemma first_item_trimmed_witness :
  Str.strip "NewRelease" = "NewRelease"
  ∧ ∃ src, extract_item page_rich_caption = Ok (src, "NewRelease")
           ∧ Str.strip src = src.
Proof.
  apply (first_item_trimmed world_no_item URL page_rich_caption
           "https://www.nogizaka46shop.com/a.jpg" "NewRelease").
  vm_compute. reflexivity.
Defined.

(** Children laid side by side give their descendants side by side. *)
Lemma descendants_app n a l1 l2 :
  Bs4.descendants (Bs4.Tag n a (l1 ++ l2))
  = Bs4.descendants (Bs4.Tag n a l1) ++ Bs4.descendants (Bs4.Tag n a l2).
Proof.
  induction l1 as [|c l1 IH]; [reflexivity|].
  change (Bs4.descendants (Bs4.Tag n a ((c :: l1) ++ l2)))
    with (c :: Bs4.descendants c ++ Bs4.descendants (Bs4.Tag n a (l1 ++ l2))).
  change (Bs4.descendants (Bs4.Tag n a (c :: l1)))
    with (c :: Bs4.descendants c ++ Bs4.descendants (Bs4.Tag n a l1)).
  rewrite IH, app_assoc. reflexivity.
Qed.

Lemma all_strings_strip_app l1 l2 :
  Bs4.all_strings_strip (l1 ++ l2)
  = Bs4.all_strings_strip l1 ++ Bs4.all_strings_strip l2.
Proof.
  induction l1 as [|[n a cs|k s] l1 IH]; simpl; [reflexivity | exact IH |].
  destruct (_ && _); [by rewrite IH | exact IH].
Qed.

(** X6 (line 49): a string node that is a comment (or of any class other
    than plain text and CDATA), and a text node made of whitespace only,
    add nothing to the text of the element that holds them: the caption is
    the same with and without such a child. *)
Theorem get_text_strip_skips (n : string) (a : gmap string string)
    (before after : list Bs4.PageElement) (k : Bs4.string_class) (s : string) :
  Bs4.interesting_string_type k = false
  ∨ Str.forall_chars Str.isspace s = true →
  Bs4.get_text_strip (Bs4.Tag n a (before ++ Bs4.Text k s :: after))
  = Bs4.get_text_strip (Bs4.Tag n a (before ++ after)).
Proof.
  intros H. unfold Bs4.get_text_strip.
  rewrite !descendants_app, !all_strings_strip_app.
  change (Bs4.descendants (Bs4.Tag n a (Bs4.Text k s :: after)))
    with (Bs4.Text k s :: [] ++ Bs4.descendants (Bs4.Tag n a after)).
  cbn [app Bs4.all_strings_strip].
  destruct H as [-> | Hs]; [reflexivity|].
  rewrite (strip_all_space s Hs). simpl. by rewrite andb_false_r.
Qed.

Lemma get_text_strip_skips_witness :
  Bs4.get_text_strip
    (Bs4.Tag "dd" ∅ ([txt "New"] ++ Bs4.Text Bs4.Comment "x" :: [txt "Release"]))
  = Bs4.get_text_strip (Bs4.Tag "dd" ∅ ([txt "New"] ++ [txt "Release"])).
Proof.
  apply (get_text_strip_skips "dd" ∅ [txt "New"] [txt "Release"]
           Bs4.Comment "x").
  left. reflexivity.
Defined.

(* ===================================================================== *)
(** ** Further properties of the network functions and of [main] *)

Lemma get_first_item_effect w url tr :
  get_first_item w url tr = (to_outcome (page_step w url), tr ++ [GET url 15]).
Proof.
  rewrite get_first_item_run. unfold page_step.
  destruct (http_get w url 15) as [resp|e]; [|reflexivity].
  unfold mbind, result_bind.
  destruct (raise_for_status resp); [|reflexivity].
  destruct (first_item _ _ _); reflexivity.
Qed.

Lemma download_image_bytes_effect w image_url tr :
  download_image_bytes w image_url tr
  = (to_outcome (download_step w image_url), tr ++ [GET image_url 20]).
Proof.
  rewrite download_image_bytes_run. unfold download_step.
  destruct (http_get w image_url 20) as [resp|e]; [|reflexivity].
  unfold mbind, result_bind.
  destruct (raise_for_status resp); reflexivity.
Qed.

Lemma send_photo_telegram_effect w bot_token chat_id image_bytes caption tr :
  send_photo_telegram w bot_token chat_id image_bytes caption tr
  = (to_outcome (notify_step w bot_token chat_id image_bytes caption),
     tr ++ [send_photo_request bot_token chat_id image_bytes caption]).
Proof.
  rewrite send_photo_telegram_run. cbv zeta.
  unfold notify_step, send_photo_answer, send_photo_request.
  destruct (http_post w _ _ _ 30) as [resp|e]; [|reflexivity].
  unfold mbind, result_bind.
  destruct (raise_for_status resp); [|reflexivity].
  destruct (json resp); reflexivity.
Qed.

Lemma raise_for_status_Ok resp :
  raise_for_status resp = Ok ()
  ↔ ¬ (400 ≤ status_code resp < 600).
Proof.
  unfold raise_for_status.
  destruct (Z.leb_spec 400 (status_code resp)),
    (Z.ltb_spec (status_code resp) 500),
    (Z.leb_spec 500 (status_code resp)),
    (Z.ltb_spec (status_code resp) 600); simpl;
    split; intros Hst; try reflexivity; try discriminate; lia.
Qed.

(** X7 (lines 54-57): [download_image_bytes] returns exactly when a
    response arrived whose status is outside 400..599, and what it returns
    is the body of that response, byte for byte; its only event is the one
    GET with timeout 20. *)
Theorem download_image_bytes_returns (w : World) (image_url : string)
    (tr tr' : list event) (b : list Byte.byte) :
  download_image_bytes w image_url tr = (Returns b, tr')
  ↔ ∃ resp, http_get w image_url 20 = Ok resp
            ∧ ¬ (400 ≤ status_code resp < 600)
            ∧ b = content resp
            ∧ tr' = tr ++ [GET image_url 20].
Proof.
  rewrite download_image_bytes_run. split.
  - destruct (http_get w image_url 20) as [resp|e]; [|discriminate].
    destruct (raise_for_status resp) as [[]|e] eqn:E; [|discriminate].
    intros [= <- <-]. exists resp.
    repeat split; try done. by apply raise_for_status_Ok.
  - intros (resp & -> & Hst & -> & ->).
    apply raise_for_status_Ok in Hst. by rewrite Hst.
Qed.

(** X8 (lines 28, 55, 64): each of the three network functions sends one
    request and does nothing else that can be observed: whether it returns
    or raises, the trace grows by that request alone, and the function
    never ends the process. *)
Theorem network_functions_one_request (w : World) (url image_url : string)
    (bot_token chat_id caption : string) (image_bytes : list Byte.byte)
    (tr : list event) :
  (get_first_item w url tr).2 = tr ++ [GET url 15]
  ∧ (download_image_bytes w image_url tr).2 = tr ++ [GET image_url 20]
  ∧ (send_photo_telegram w bot_token chat_id image_bytes caption tr).2
    = tr ++ [send_photo_request bot_token chat_id image_bytes caption]
  ∧ (∀ c, (get_first_item w url tr).1 ≠ Exits c
          ∧ (download_image_bytes w image_url tr).1 ≠ Exits c
          ∧ (send_photo_telegram w bot_token chat_id image_bytes caption tr).1
            ≠ Exits c).
Proof.
  rewrite get_first_item_effect, download_image_bytes_effect,
    send_photo_telegram_effect. simpl. repeat split.
  - by destruct (page_step w url).
  - by destruct (download_step w image_url).
  - by destruct (notify_step w bot_token chat_id image_bytes caption).
Qed.

(** X9 (lines 61-64): the request of [send_photo_telegram] goes to the
    [sendPhoto] method of the bot named by the token, with timeout 30; its
    form has exactly the fields [chat_id] and [caption], holding the two
    arguments, and its only file part is [photo], named [image.jpg] and
    holding the image bytes unchanged. *)
Theorem send_photo_telegram_request (w : World) (bot_token chat_id : string)
    (image_bytes : list Byte.byte) (caption : string) (tr : list event) :
  ∃ data files,
    (send_photo_telegram w bot_token chat_id image_bytes caption tr).2
    = tr ++ [POST ("https://api.telegram.org/bot" +:+ bot_token +:+ "/sendPhoto")
                  data files 30]
    ∧ data !! "chat_id" = Some chat_id
    ∧ data !! "caption" = Some caption
    ∧ dom data = {[ "chat_id"; "caption" ]}
    ∧ files !! "photo" = Some ("image.jpg", image_bytes)
    ∧ dom files = {[ "photo" ]}.
Proof.
  eexists _, _. rewrite send_photo_telegram_effect.
  split; [reflexivity|].
  split; [apply lookup_insert_eq|].
  split; [by rewrite lookup_insert_ne, lookup_singleton_eq|].
  split; [rewrite dom_insert_L, dom_singleton_L; set_solver|].
  split; [apply lookup_singleton_eq | apply dom_singleton_L].
Qed.

(** Every way a run can go, read off the world. *)
Lemma run_cases w :
  run w
  = match os_getenv w "TELEGRAM_BOT_TOKEN", os_getenv w "TELEGRAM_CHAT_ID" with
    | Some token, Some chat_id =>
        if Str.truthy token && Str.truthy chat_id then
          match page_step w URL with
          | Raise e =>
              (1, [GET URL 15;
                   PRINT [PStr "Error fetching/parsing page:"; PExn e]])
          | Ok (image_url, caption) =>
              match download_step w image_url with
              | Raise e =>
                  (1, GET URL 15 :: found_lines image_url caption
                      ++ [GET image_url 20;
                          PRINT [PStr "Error downloading image:"; PExn e]])
              | Ok image_bytes =>
                  match notify_step w token chat_id image_bytes caption with
                  | Raise e =>
                      (1, GET URL 15 :: found_lines image_url caption
                          ++ [GET image_url 20;
                              send_photo_request token chat_id image_bytes
                                caption;
                              PRINT [PStr "Error sending to Telegram:";
                                     PExn e]])
                  | Ok res =>
                      match py_get res "ok" with
                      | Raise e =>
                          (1, GET URL 15 :: found_lines image_url caption
                              ++ [GET image_url 20;
                                  send_photo_request token chat_id image_bytes
                                    caption])
                      | Ok ok =>
                          (0, GET URL 15 :: found_lines image_url caption
                              ++ [GET image_url 20;
                                  send_photo_request token chat_id image_bytes
                                    caption;
                                  PRINT [PStr "Telegram API returned ok=";
                                         PObj ok]])
                      end
                  end
              end
          end
        else (2, [usage_line])
    | _, _ => (2, [usage_line])
    end.
Proof.
  destruct (os_getenv w "TELEGRAM_BOT_TOKEN") as [token|] eqn:Ht;
    [|unfold run, main; by rewrite Ht].
  destruct (os_getenv w "TELEGRAM_CHAT_ID") as [chat_id|] eqn:Hc;
    [|unfold run, main; by rewrite Ht, Hc].
  destruct token as [|t0 token];
    [unfold run, main; by rewrite Ht, Hc|].
  destruct chat_id as [|c0 chat_id];
    [unfold run, main; by rewrite Ht, Hc|].
  unfold run.
  rewrite (main_with_credentials w _ _ Ht Hc) by discriminate.
  cbn [Str.truthy Str.is_empty negb andb].
  rewrite get_first_item_effect.
  destruct (page_step w URL) as [[image_url caption]|e]; [|reflexivity].
  cbn [to_outcome]. rewrite download_image_bytes_effect.
  destruct (download_step w image_url) as [image_bytes|e]; [|reflexivity].
  cbn [to_outcome]. rewrite send_photo_telegram_effect.
  destruct (notify_step w _ _ image_bytes caption) as [res|e]; [|reflexivity].
  cbn [to_outcome].
  destruct (py_get res "ok"); reflexivity.
Qed.

Lemma py_get_Ok res key v :
  py_get res key = Ok v ↔ ∃ d, res = PyDict d ∧ v = default PyNone (d !! key).
Proof.
  destruct res; simpl; split;
    try discriminate; try (by intros (d' & [=] & _)).
  - intros [= <-]. by eexists.
  - by intros (d' & [= <-] & ->).
Qed.

(** X11 (lines 70-74): exit status 2 is kept for the missing configuration:
    the run ends with 2 exactly when one of the two variables is absent or
    empty. *)
Theorem run_exit_2_iff (w : World) :
  (run w).1 = 2
  ↔ opt_truthy (os_getenv w "TELEGRAM_BOT_TOKEN") = false
    ∨ opt_truthy (os_getenv w "TELEGRAM_CHAT_ID") = false.
Proof.
  rewrite run_cases. unfold opt_truthy.
  destruct (os_getenv w "TELEGRAM_BOT_TOKEN") as [token|];
    destruct (os_getenv w "TELEGRAM_CHAT_ID") as [chat_id|];
    simpl; try (split; auto; fail).
  destruct (Str.truthy token), (Str.truthy chat_id); simpl;
    try (split; auto; fail).
  split; [|intros [|]; discriminate].
  repeat case_match; simpl; discriminate.
Qed.

(** X12 (lines 69-98): exit status 0 means the whole pipeline ran. If the
    run ends with 0 then both variables were set, the page gave an item,
    the image was downloaded, the messaging API answered with a status
    outside 400..599 and a body that parses to an object, and the events of
    the run are the three requests in order with the three printed lines. *)
Theorem run_exit_0_complete (w : World) :
  (run w).1 = 0 →
  ∃ token chat_id image_url caption image_bytes d,
    os_getenv w "TELEGRAM_BOT_TOKEN" = Some token
    ∧ os_getenv w "TELEGRAM_CHAT_ID" = Some chat_id
    ∧ token ≠ EmptyString ∧ chat_id ≠ EmptyString
    ∧ page_step w URL = Ok (image_url, caption)
    ∧ download_step w image_url = Ok image_bytes
    ∧ notify_step w token chat_id image_bytes caption = Ok (PyDict d)
    ∧ (run w).2
      = GET URL 15 :: found_lines image_url caption
        ++ [GET image_url 20;
            send_photo_request token chat_id image_bytes caption;
            PRINT [PStr "Telegram API returned ok=";
                   PObj (default PyNone (d !! "ok"))]].
Proof.
  rewrite run_cases.
  destruct (os_getenv w "TELEGRAM_BOT_TOKEN") as [token|]; [|discriminate].
  destruct (os_getenv w "TELEGRAM_CHAT_ID") as [chat_id|]; [|discriminate].
  destruct token as [|t0 token]; [discriminate|].
  destruct chat_id as [|c0 chat_id]; [discriminate|].
  cbn [Str.truthy Str.is_empty negb andb].
  destruct (page_step w URL) as [[image_url caption]|e]; [|discriminate].
  destruct (download_step w image_url) as [image_bytes|e] eqn:Ed;
    [|discriminate].
  destruct (notify_step w _ _ image_bytes caption) as [res|e] eqn:En;
    [|discriminate].
  destruct (py_get res "ok") as [ok|e] eqn:Eok; [|discriminate].
  apply py_get_Ok in Eok as (d & -> & ->). intros _.
  exists (String t0 token), (String c0 chat_id), image_url, caption,
    image_bytes, d.
  by repeat split.
Qed.

Lemma run_exit_0_complete_witness :
  ∃ token chat_id image_url caption image_bytes d,
    os_getenv (world_ok true) "TELEGRAM_BOT_TOKEN" = Some token
    ∧ os_getenv (world_ok true) "TELEGRAM_CHAT_ID" = Some chat_id
    ∧ token ≠ EmptyString ∧ chat_id ≠ EmptyString
    ∧ page_step (world_ok true) URL = Ok (image_url, caption)
    ∧ download_step (world_ok true) image_url = Ok image_bytes
    ∧ notify_step (world_ok true) token chat_id image_bytes caption
      = Ok (PyDict d)
    ∧ (run (world_ok true)).2
      = GET URL 15 :: found_lines image_url caption
        ++ [GET image_url 20;
            send_photo_request token chat_id image_bytes caption;
            PRINT [PStr "Telegram API returned ok=";
                   PObj (default PyNone (d !! "ok"))]].
Proof.
  apply (run_exit_0_complete (world_ok true)). vm_compute. reflexivity.
Defined.

(** X13 (lines 69-98): a run sends at most three requests, each once and in
    the order of the pipeline: the requests of a run are a prefix of the
    page GET, the GET of one image URL and the POST of one photo. *)
Theorem run_requests_in_order (w : World) :
  ∃ token chat_id image_url caption image_bytes,
    requests_of (run w).2
    `prefix_of` [GET URL 15; GET image_url 20;
                 send_photo_request token chat_id image_bytes caption].
Proof.
  rewrite run_cases.
  destruct (os_getenv w "TELEGRAM_BOT_TOKEN") as [token|].
  2:{ exists EmptyString, EmptyString, EmptyString, EmptyString, [].
      apply prefix_nil. }
  destruct (os_getenv w "TELEGRAM_CHAT_ID") as [chat_id|].
  2:{ exists EmptyString, EmptyString, EmptyString, EmptyString, [].
      apply prefix_nil. }
  destruct (Str.truthy token && Str.truthy chat_id).
  2:{ exists EmptyString, EmptyString, EmptyString, EmptyString, [].
      apply prefix_nil. }
  destruct (page_step w URL) as [[image_url caption]|e].
  2:{ exists token, chat_id, EmptyString, EmptyString, [].
      by eexists. }
  destruct (download_step w image_url) as [image_bytes|e].
  2:{ exists token, chat_id, image_url, caption, []. by eexists. }
  exists token, chat_id, image_url, caption, image_bytes.
  destruct (notify_step w _ _ image_bytes caption) as [res|e];
    [|by exists []].
  destruct (py_get res "ok"); by exists [].
Qed.

(** X14 (line 97): a body of the messaging API that parses to something
    other than an object is not handled. [res.get] raises outside every
    [try], so after the POST nothing more is printed and the exception ends
    the process with exit status 1. *)
Theorem run_non_object_answer (w : World) (token chat_id : string)
    (image_url caption : string) (image_bytes : list Byte.byte) (res : pyobj) :
  os_getenv w "TELEGRAM_BOT_TOKEN" = Some token →
  os_getenv w "TELEGRAM_CHAT_ID" = Some chat_id →
  token ≠ EmptyString →
  chat_id ≠ EmptyString →
  page_step w URL = Ok (image_url, caption) →
  download_step w image_url = Ok image_bytes →
  notify_step w token chat_id image_bytes caption = Ok res →
  (∀ d, res ≠ PyDict d) →
  run w
  = (1, GET URL 15 :: found_lines image_url caption
        ++ [GET image_url 20;
            send_photo_request token chat_id image_bytes caption]).
Proof.
  intros Ht Hc Htn Hcn Hp Hd Hn Hres.
  rewrite run_cases, Ht, Hc.
  destruct token; [done|]. destruct chat_id; [done|].
  cbn [Str.truthy Str.is_empty negb andb].
  rewrite Hp, Hd, Hn.
  destruct res; try reflexivity. by destruct (Hres d).
Qed.

Lemma run_non_object_answer_witness :
  run world_api_list
  = (1, GET URL 15
        :: found_lines "https://www.nogizaka46shop.com/path/a.jpg"
             "Caption Text"
        ++ [GET "https://www.nogizaka46shop.com/path/a.jpg" 20;
            send_photo_request "123:abc" "-100" image_bytes_sample
              "Caption Text"]).
Proof.
  apply (run_non_object_answer world_api_list "123:abc" "-100"
           "https://www.nogizaka46shop.com/path/a.jpg" "Caption Text"
           image_bytes_sample (PyList [PyBool true])).
  - reflexivity.
  - reflexivity.
  - discriminate.
  - discriminate.
  - vm_compute. reflexivity.
  - reflexivity.
  - reflexivity.
  - discriminate.
Defined.

(** X15 (lines 64-66, 91-95): [resp.json()] runs inside the [try] of the
    notify step. When the messaging API answers with a status outside
    400..599 but a body that does not parse, the photo has been posted, and
    the run still reports an error in sending and ends with exit status 1. *)
Theorem run_unparseable_answer (w : World) (token chat_id : string)
    (image_url caption : string) (image_bytes : list Byte.byte)
    (resp : Response) (e : Exn) :
  os_getenv w "TELEGRAM_BOT_TOKEN" = Some token →
  os_getenv w "TELEGRAM_CHAT_ID" = Some chat_id →
  token ≠ EmptyString →
  chat_id ≠ EmptyString →
  page_step w URL = Ok (image_url, caption) →
  download_step w image_url = Ok image_bytes →
  send_photo_answer w token chat_id image_bytes caption = Ok resp →
  ¬ (400 ≤ status_code resp < 600) →
  json resp = Raise e →
  run w
  = (1, GET URL 15 :: found_lines image_url caption
        ++ [GET image_url 20;
            send_photo_request token chat_id image_bytes caption;
            PRINT [PStr "Error sending to Telegram:"; PExn e]]).
Proof.
  intros Ht Hc Htn Hcn Hp Hd Ha Hst%raise_for_status_Ok Hj.
  rewrite run_cases, Ht, Hc.
  destruct token; [done|]. destruct chat_id; [done|].
  cbn [Str.truthy Str.is_empty negb andb].
  rewrite Hp, Hd. unfold notify_step. rewrite Ha. unfold mbind, result_bind.
  by rewrite Hst, Hj.
Qed.

Lemma run_unparseable_answer_witness :
  run world_api_garbled
  = (1, GET URL 15
        :: found_lines "https://www.nogizaka46shop.com/path/a.jpg"
             "Caption Text"
        ++ [GET "https://www.nogizaka46shop.com/path/a.jpg" 20;
            send_photo_request "123:abc" "-100" image_bytes_sample
              "Caption Text";
            PRINT [PStr "Error sending to Telegram:";
                   PExn (JSONDecodeError "Expecting value")]]).
Proof.
  apply (run_unparseable_answer world_api_garbled "123:abc" "-100"
           "https://www.nogizaka46shop.com/path/a.jpg" "Caption Text"
           image_bytes_sample (response 200 EmptyString [] no_json)).
  - reflexivity.
  - reflexivity.
  - discriminate.
  - discriminate.
  - vm_compute. reflexivity.
  - reflexivity.
  - reflexivity.
  - simpl. lia.
  - reflexivity.
Defined.

(** X16 (lines 76-80): a page that arrives but holds no item to extract ends
    the run like a failed fetch. Whatever the parse raises is printed after
    "Error fetching/parsing page:", the exit status is 1, and the page GET
    is the only request of the run. *)
Theorem run_parse_error (w : World) (token chat_id : string)
    (resp : Response) (e : Exn) :
  os_getenv w "TELEGRAM_BOT_TOKEN" = Some token →
  os_getenv w "TELEGRAM_CHAT_ID" = Some chat_id →
  token ≠ EmptyString →
  chat_id ≠ EmptyString →
  http_get w URL 15 = Ok resp →
  ¬ (400 ≤ status_code resp < 600) →
  first_item w URL (html_parser w (text resp)) = Raise e →
  run w
  = (1, [GET URL 15; PRINT [PStr "Error fetching/parsing page:"; PExn e]]).
Proof.
  intros Ht Hc Htn Hcn Hg Hst%raise_for_status_Ok Hfi.
  rewrite run_cases, Ht, Hc.
  destruct token; [done|]. destruct chat_id; [done|].
  cbn [Str.truthy Str.is_empty negb andb].
  unfold page_step. rewrite Hg. unfold mbind, result_bind.
  by rewrite Hst, Hfi.
Qed.

Lemma run_parse_error_witness :
  run world_no_item
  = (1, [GET URL 15;
         PRINT [PStr "Error fetching/parsing page:";
                PExn (RuntimeError "No item div found on the page")]]).
Proof.
  apply (run_parse_error world_no_item "123:abc" "-100" page_response).
  - reflexivity.
  - reflexivity.
  - discriminate.
  - discriminate.
  - reflexivity.
  - simpl. lia.
  - reflexivity.
Defined.

(* ===================================================================== *)
(** ** The join of a site-relative reference *)

Lemma not_contains_remove c s :
  Str.contains c s = false → Str.remove c s = s.
Proof.
  induction s as [|a s IH]; simpl; [reflexivity|].
  destruct (Ascii.eqb a c); [discriminate|]. intros H. by rewrite IH.
Qed.

Lemma not_contains_partition c s :
  Str.contains c s = false → Str.partition c s = None.
Proof.
  induction s as [|a s IH]; simpl; [reflexivity|].
  destruct (Ascii.eqb a c); [discriminate|]. intros H. by rewrite IH.
Qed.

Lemma forall_chars_not_contains P c s :
  Str.forall_chars P s = true → P c = false → Str.contains c s = false.
Proof.
  intros Hs Hc. induction s as [|a s IH]; simpl; [reflexivity|].
  simpl in Hs. apply andb_true_iff in Hs as [Ha Hs].
  destruct (Ascii.eqb_spec a c) as [->|_]; [congruence|]. by apply IH.
Qed.

Lemma split_nonempty c s : Str.split c s ≠ [].
Proof.
  destruct s as [|a s]; simpl; [discriminate|].
  destruct (Ascii.eqb a c); [discriminate|].
  destruct (Str.split c s); discriminate.
Qed.

(** Splitting at [/] and joining with [/] gives the text back. *)
Lemma join_split s : Str.join "/" (Str.split "/" s) = s.
Proof.
  induction s as [|a s IH]; [reflexivity|].
  simpl. pose proof (split_nonempty "/" s) as Hne.
  destruct (Str.split "/" s) as [|w ws]; [done|].
  destruct (Ascii.eqb_spec a "/") as [->|_].
  - change (Str.join "/" (EmptyString :: w :: ws))
      with ("/" +:+ Str.join "/" (w :: ws)).
    by rewrite IH.
  - destruct ws as [|w' ws].
    + simpl in *. by rewrite IH.
    + change (Str.join "/" (String a w :: w' :: ws))
        with (String a (w +:+ "/" +:+ Str.join "/" (w' :: ws))).
      change (Str.join "/" (w :: w' :: ws))
        with (w +:+ "/" +:+ Str.join "/" (w' :: ws)) in IH.
      by rewrite IH.
Qed.

Lemma resolve_plain_segments l acc :
  forallb no_dot_segment l = true →
  fold_left Urllib.resolve_segment l acc = acc ++ l.
Proof.
  revert acc. induction l as [|seg l IH]; intros acc; simpl.
  - intros _. by rewrite app_nil_r.
  - intros [Hseg Hl]%andb_true_iff. rewrite IH by done.
    unfold Urllib.resolve_segment. unfold no_dot_segment in Hseg.
    apply negb_true_iff, orb_false_iff in Hseg as [-> ->].
    by rewrite <- app_assoc.
Qed.

Lemma last_plain_segment l :
  forallb no_dot_segment l = true →
  Urllib.mem (List.last l EmptyString) ["."; ".."] = false.
Proof.
  induction l as [|seg l IH]; [reflexivity|].
  intros [Hseg Hl]%andb_true_iff.
  destruct l as [|seg' l]; [|by apply IH].
  simpl. unfold no_dot_segment in Hseg.
  apply negb_true_iff, orb_false_iff in Hseg as [-> ->]. reflexivity.
Qed.

Section plain_reference.

Variable orc : string → option Urllib.ip_version.
Variable rest : string.
Hypothesis Hplain : Str.forall_chars plain_path_char (String "/" rest) = true.
Hypothesis Hsingle : Str.startswith (String "/" rest) "//" = false.

Lemma plain_reference_urlparse :
  Urllib.urlparse orc (String "/" rest) "https"
  = Ok ("https", EmptyString, String "/" rest, EmptyString, EmptyString,
        EmptyString).
Proof.
  assert (Hc : ∀ c, plain_path_char c = false →
                    Str.contains c (String "/" rest) = false).
  { intros c. by apply forall_chars_not_contains. }
  unfold Urllib.urlparse, Urllib.urlsplit.
  change (Str.lstrip_by Urllib.c0_control_or_space (String "/" rest))
    with (String "/" rest).
  change (Urllib.remove_unsafe
            (Str.strip_by Urllib.c0_control_or_space "https")) with "https".
  unfold Urllib.remove_unsafe.
  rewrite (not_contains_remove "009") by (by apply Hc).
  rewrite (not_contains_remove "013") by (by apply Hc).
  rewrite (not_contains_remove "010") by (by apply Hc).
  assert (Hcolon : Str.partition ":" (String "/" rest)
                   = match Str.partition ":" rest with
                     | Some (l, r) => Some (String "/" l, r)
                     | None => None
                     end) by reflexivity.
  rewrite Hcolon. clear Hcolon.
  assert (Hscheme : ∀ l r,
            (if Str.is_ascii_alpha "/"
                && Str.forall_chars Urllib.scheme_char (String "/" l)
             then (Str.lower_ascii (String "/" l), r)
             else ("https", String "/" rest))
            = ("https", String "/" rest)) by reflexivity.
  destruct (Str.partition ":" rest) as [[l r]|]; rewrite ?Hscheme;
    rewrite Hsingle;
    unfold mbind, result_bind;
    rewrite (not_contains_partition "#") by (by apply Hc);
    rewrite (not_contains_partition "?") by (by apply Hc);
    rewrite (Hc ";"%char) by reflexivity;
    by rewrite andb_false_r.
Qed.

End plain_reference.

Lemma startswith_slash s :
  Str.startswith s "/" = true → ∃ rest, s = String "/" rest.
Proof.
  destruct s as [|a s]; simpl; [discriminate|].
  destruct (Ascii.eqb_spec a "/") as [->|]; [|discriminate]. by exists s.
Qed.

(** X17 (lines 44-46): what "make absolute" comes to for an ordinary
    site-relative reference. For a page URL with the scheme [https] and a
    host, a reference that starts with a single [/], holds no tab, line
    break, [#], [?] or [;], and has no [.] or [..] segment is returned as
    [https://], the host of the page, and the reference itself; the path of
    the page plays no part. *)
Theorem normalize_src_site_relative (w : World) (url src : string)
    (bnetloc bpath bparams bquery bfragment : string) :
  Urllib.urlparse (ip_address w) url EmptyString
  = Ok ("https", bnetloc, bpath, bparams, bquery, bfragment) →
  bnetloc ≠ EmptyString →
  Str.startswith src "/" = true →
  Str.startswith src "//" = false →
  Str.forall_chars plain_path_char src = true →
  forallb no_dot_segment (Str.split "/" src) = true →
  normalize_src w url src = Ok ("https://" +:+ bnetloc +:+ src).
Proof.
  intros Hbase Hnet Hslash Hsingle Hplain Hsegs.
  unfold normalize_src. rewrite Hsingle, Hslash.
  apply startswith_slash in Hslash as [rest ->].
  unfold Urllib.urljoin.
  destruct url as [|u0 url]; [vm_compute in Hbase; discriminate|].
  cbn [Str.truthy Str.is_empty negb].
  rewrite Hbase. unfold mbind at 1, result_bind at 1.
  rewrite (plain_reference_urlparse _ rest Hplain Hsingle).
  unfold mbind, result_bind.
  change (negb (String.eqb "https" "https")
          || negb (Urllib.mem "https" Urllib.uses_relative)) with false.
  change (Urllib.mem "https" Urllib.uses_netloc) with true.
  change (Str.startswith (String "/" rest) "/") with true.
  cbn [Str.truthy Str.is_empty negb andb].
  rewrite (resolve_plain_segments _ [] Hsegs).
  rewrite (last_plain_segment _ Hsegs). cbn [app].
  rewrite join_split.
  destruct bnetloc as [|n0 bnetloc]; [done|]. reflexivity.
Qed.

Lemma normalize_src_site_relative_witness :
  normalize_src world_no_item URL "/images/x.jpg"
  = Ok ("https://" +:+ "www.nogizaka46shop.com" +:+ "/images/x.jpg").
Proof.
  apply (normalize_src_site_relative world_no_item URL "/images/x.jpg"
           "www.nogizaka46shop.com" "/category/426"
           EmptyString EmptyString EmptyString).
  - reflexivity.
  - discriminate.
  - reflexivity.
  - reflexivity.
  - reflexivity.
  - reflexivity.
Defined.
